(** * docker-vxrouter: the IPAM driver and the network-resource cache

    A shallow embedding of [vxrIpam/driver.go] and [docker/client/client.go],
    together with the parts of Go's [net] package, of [netlink] and of the
    container runtime they call. *)

From Stdlib Require Import String Ascii ZArith Lia.
From stdpp Require Import base gmap strings list.
Import ListNotations.
Open Scope Z_scope.

(* ------------------------------------------------------------------ *)
(** ** Go's [net] package (the parts the driver calls) *)

Module GoNet.

(** A Go [string] is a byte sequence; bytes are kept as [Z] in [0,255]. *)
Definition bytes_of (s : string) : list Z :=
  map (fun a => Z.of_nat (nat_of_ascii a)) (list_ascii_of_string s).

Definition string_of_bytes (l : list Z) : string :=
  string_of_list_ascii (map (fun z => ascii_of_nat (Z.to_nat z)) l).

Definition IPv4len : nat := 4.
Definition IPv6len : nat := 16.

(** [net.IP] and [net.IPMask] are byte slices; the nil slice is [[]]. *)
Definition IP := list Z.
Definition IPMask := list Z.

Record IPNet := mkIPNet { IPNet_IP : IP; IPNet_Mask : IPMask }.

Definition v4InV6Prefix : list Z := [0;0;0;0;0;0;0;0;0;0;255;255].

Definition IPv4 (a b c d : Z) : IP := v4InV6Prefix ++ [a; b; c; d].

(** [big] bounds the numbers [dtoi] and [xtoi] accept. *)
Definition big : Z := 16777215.

(** [dtoi]: decimal to integer; number, characters consumed, success. *)
Fixpoint dtoi_loop (s : list Z) (n : Z) (i : nat) : Z * nat * bool :=
  match s with
  | c :: s' =>
      if (48 <=? c) && (c <=? 57) then
        let n' := n * 10 + (c - 48) in
        if big <=? n' then (big, i, false) else dtoi_loop s' n' (S i)
      else if (i =? 0)%nat then (0, 0%nat, false) else (n, i, true)
  | [] => if (i =? 0)%nat then (0, 0%nat, false) else (n, i, true)
  end.

Definition dtoi (s : list Z) : Z * nat * bool := dtoi_loop s 0 0.

(** [xtoi]: hexadecimal to integer. *)
Definition hex_val (c : Z) : option Z :=
  if (48 <=? c) && (c <=? 57) then Some (c - 48)
  else if (97 <=? c) && (c <=? 102) then Some (c - 97 + 10)
  else if (65 <=? c) && (c <=? 70) then Some (c - 65 + 10)
  else None.

Fixpoint xtoi_loop (s : list Z) (n : Z) (i : nat) : Z * nat * bool :=
  match s with
  | c :: s' =>
      match hex_val c with
      | Some v =>
          let n' := n * 16 + v in
          if big <=? n' then (0, i, false) else xtoi_loop s' n' (S i)
      | None => if (i =? 0)%nat then (0, i, false) else (n, i, true)
      end
  | [] => if (i =? 0)%nat then (0, i, false) else (n, i, true)
  end.

Definition xtoi (s : list Z) : Z * nat * bool := xtoi_loop s 0 0.

(** [parseIPv4]: the loop over the four octets. [i] is the octet index. *)
Fixpoint parseIPv4_loop (k : nat) (i : nat) (s : list Z) (p : list Z)
  : option (list Z) :=
  match k with
  | O => match s with [] => Some p | _ => None end
  | S k' =>
      match s with
      | [] => None                                  (* missing octets *)
      | c0 :: s0 =>
          let s1 := if (0 <? i)%nat then
                      (if c0 =? 46 then Some s0 else None) else Some s in
          match s1 with
          | None => None
          | Some s1 =>
              match dtoi s1 with
              | (n, c, ok) =>
                  if negb ok || (255 <? n) then None
                  else parseIPv4_loop k' (S i) (skipn c s1) (p ++ [n])
              end
          end
      end
  end.

Definition parseIPv4 (s : list Z) : IP :=
  match parseIPv4_loop IPv4len 0 s [] with
  | Some [a; b; c; d] => IPv4 a b c d
  | _ => []
  end.

(** [parseIPv6] (zones not allowed). The Go code fills a 16-byte array
    front to back; the bytes written so far are kept in order in [ip], so
    [length ip] is Go's index [i], and [ell] is Go's [ellipsis] ([None] for
    -1). Each turn of the loop adds at least two bytes, so 8 turns reach
    [i = 16], where Go's loop condition fails. *)
Definition is_set (o : option nat) : bool :=
  match o with Some _ => true | None => false end.

Inductive v6loop := V6Nil | V6Exit (ip : list Z) (ell : option nat) (s : list Z).

Fixpoint parseIPv6_loop (fuel : nat) (ip : list Z) (ell : option nat)
    (s : list Z) : v6loop :=
  match fuel with
  | O => V6Exit ip ell s
  | S f =>
      let i := length ip in
      if negb (i <? IPv6len)%nat then V6Exit ip ell s else
      match xtoi s with
      | (n, c, ok) =>
          if negb ok || (65535 <? n) then V6Nil else
          if (c <? length s)%nat && (nth c s 0 =? 46) then
            (* trailing IPv4 *)
            if negb (is_set ell) && negb (i =? IPv6len - IPv4len)%nat then V6Nil
            else if (IPv6len <? i + IPv4len)%nat then V6Nil
            else match parseIPv4 s with
                 | [] => V6Nil
                 | ip4 => V6Exit (ip ++ skipn 12 ip4) ell []
                 end
          else
            let ip' := ip ++ [Z.land (Z.shiftr n 8) 255; Z.land n 255] in
            let s' := skipn c s in
            match s' with
            | [] => V6Exit ip' ell []
            | c0 :: s1 =>
                if negb (c0 =? 58) || (length s' =? 1)%nat then V6Nil else
                match s1 with
                | [] => V6Nil
                | c1 :: s2 =>
                    if c1 =? 58 then
                      (* ellipsis *)
                      if is_set ell then V6Nil else
                      match s2 with
                      | [] => V6Exit ip' (Some (length ip')) []
                      | _ => parseIPv6_loop f ip' (Some (length ip')) s2
                      end
                    else parseIPv6_loop f ip' ell s1
                end
            end
      end
  end.

Definition parseIPv6 (s : list Z) : IP :=
  let '(ell, s) :=
    match s with
    | c0 :: c1 :: s' => if (c0 =? 58) && (c1 =? 58) then (Some 0%nat, s') else (None, s)
    | _ => (None, s)
    end in
  if is_set ell && (match s with [] => true | _ => false end) then repeat 0 IPv6len
  else
  match parseIPv6_loop 9 [] ell s with
  | V6Nil => []
  | V6Exit ip ell s =>
      match s with
      | _ :: _ => []                         (* must have used entire string *)
      | [] =>
          let i := length ip in
          if (i <? IPv6len)%nat then
            match ell with
            | None => []
            | Some e => firstn e ip ++ repeat 0 (IPv6len - i) ++ skipn e ip
            end
          else if is_set ell then [] else ip
      end
  end.

(** [ParseIP]: the first '.' or ':' decides the family. *)
Fixpoint parseIP_scan (l : list Z) (s : list Z) : IP :=
  match l with
  | [] => []
  | c :: l' => if c =? 46 then parseIPv4 s
               else if c =? 58 then parseIPv6 s
               else parseIP_scan l' s
  end.

Definition ParseIP (s : string) : IP :=
  let b := bytes_of s in parseIP_scan b b.

(** [CIDRMask]. *)
Fixpoint cidr_bytes (l : nat) (n : Z) : list Z :=
  match l with
  | O => []
  | S l' => if 8 <=? n then 255 :: cidr_bytes l' (n - 8)
            else Z.land (Z.lnot (Z.shiftr 255 n)) 255 :: cidr_bytes l' 0
  end.

Definition CIDRMask (ones bits : Z) : IPMask :=
  if negb ((bits =? 32) || (bits =? 128)) then []
  else if (ones <? 0) || (bits <? ones) then []
  else cidr_bytes (Z.to_nat (bits / 8)) ones.

(** [IP.Mask]. *)
Definition IP_Mask (ip : IP) (mask : IPMask) : IP :=
  let mask := if (length mask =? IPv6len)%nat && (length ip =? IPv4len)%nat
                 && forallb (fun b => b =? 255) (firstn 12 mask)
              then skipn 12 mask else mask in
  let ip := if (length mask =? IPv4len)%nat && (length ip =? IPv6len)%nat
               && bool_decide (firstn 12 ip = v4InV6Prefix)
            then skipn 12 ip else ip in
  if negb (length ip =? length mask)%nat then []
  else zip_with Z.land ip mask.

(** [simpleMaskLength]; the inner loop counts the leading one bits of a
    byte, shifting it left within 8 bits. *)
Fixpoint ones_loop (fuel : nat) (v n : Z) : Z * Z :=
  match fuel with
  | O => (n, v)
  | S f => if Z.testbit v 7 then ones_loop f (Z.land (Z.shiftl v 1) 255) (n + 1)
           else (n, v)
  end.

Fixpoint simpleMaskLength_loop (m : IPMask) (n : Z) : Z :=
  match m with
  | [] => n
  | v :: rest =>
      if v =? 255 then simpleMaskLength_loop rest (n + 8)
      else let '(n', v') := ones_loop 8 v n in
           if negb (v' =? 0) then -1
           else if forallb (fun b => b =? 0) rest then n' else -1
  end.

Definition simpleMaskLength (m : IPMask) : Z := simpleMaskLength_loop m 0.

(** [IPMask.Size]. *)
Definition Mask_Size (m : IPMask) : Z * Z :=
  let ones := simpleMaskLength m in
  let bits := 8 * Z.of_nat (length m) in
  if ones =? -1 then (0, 0) else (ones, bits).

(** [IP.To4]. *)
Definition To4 (ip : IP) : IP :=
  if (length ip =? IPv4len)%nat then ip
  else if (length ip =? IPv6len)%nat && forallb (fun b => b =? 0) (firstn 10 ip)
          && (nth 10 ip 0 =? 255) && (nth 11 ip 0 =? 255)
  then skipn 12 ip else [].

(** [IP.Equal]. *)
Definition IP_Equal (ip x : IP) : bool :=
  if (length ip =? length x)%nat then bool_decide (ip = x)
  else if (length ip =? IPv4len)%nat && (length x =? IPv6len)%nat then
    bool_decide (firstn 12 x = v4InV6Prefix) && bool_decide (ip = skipn 12 x)
  else if (length ip =? IPv6len)%nat && (length x =? IPv4len)%nat then
    bool_decide (firstn 12 ip = v4InV6Prefix) && bool_decide (skipn 12 ip = x)
  else false.

(** [ParseCIDR]. [None] is the error result ([nil, nil, err]). *)
Fixpoint byteIndex (s : list Z) (c : Z) : option nat :=
  match s with
  | [] => None
  | x :: s' => if x =? c then Some 0%nat
               else match byteIndex s' c with Some i => Some (S i) | None => None end
  end.

Definition ParseCIDR (str : string) : option (IP * IPNet) :=
  let s := bytes_of str in
  match byteIndex s 47 with
  | None => None
  | Some i =>
      let addr := firstn i s in
      let mask := skipn (S i) s in
      let '(iplen, ip) :=
        match parseIPv4 addr with
        | [] => (IPv6len, parseIPv6 addr)
        | ip => (IPv4len, ip)
        end in
      match dtoi mask with
      | (n, i', ok) =>
          if match ip with [] => true | _ => false end || negb ok
             || negb (i' =? length mask)%nat || (n <? 0)
             || (8 * Z.of_nat iplen <? n)
          then None
          else let m := CIDRMask n (8 * Z.of_nat iplen) in
               Some (ip, mkIPNet (IP_Mask ip m) m)
      end
  end.

(** Formatting: [uitoa], [appendHex], [hexString]. *)
Definition digit_char (d : Z) : ascii := ascii_of_nat (Z.to_nat (48 + d)).

Definition hex_char (d : Z) : ascii :=
  ascii_of_nat (Z.to_nat (if d <? 10 then 48 + d else 87 + d)).

Fixpoint uitoa_loop (fuel : nat) (v : Z) (acc : string) : string :=
  match fuel with
  | O => acc
  | S f => let acc' := String (digit_char (v mod 10)) acc in
           if v <? 10 then acc' else uitoa_loop f (v / 10) acc'
  end.

Definition uitoa (v : Z) : string := uitoa_loop 20 v EmptyString.

Definition appendHex (i : Z) : string :=
  if i =? 0 then "0"%string
  else fold_left
         (fun acc j => let v := Z.shiftr i (4 * j) in
                       if 0 <? v then (acc ++ String (hex_char (Z.land v 15)) EmptyString)%string
                       else acc)
         [7; 6; 5; 4; 3; 2; 1; 0] EmptyString.

Definition hexString (b : list Z) : string :=
  fold_left (fun acc x =>
               (acc ++ String (hex_char (Z.shiftr x 4))
                          (String (hex_char (Z.land x 15)) EmptyString))%string)
            b EmptyString.

(** [IP.String]. The zero-run search and the printing loop each take at
    most 8 turns of 2 bytes. *)
Fixpoint zero_run_end (fuel : nat) (p : IP) (j : nat) : nat :=
  match fuel with
  | O => j
  | S f => if (j <? IPv6len)%nat && (nth j p 1 =? 0) && (nth (S j) p 1 =? 0)
           then zero_run_end f p (j + 2) else j
  end.

Fixpoint longest_zero_run (fuel : nat) (p : IP) (i : nat) (e0 e1 : Z) : Z * Z :=
  match fuel with
  | O => (e0, e1)
  | S f =>
      if negb (i <? IPv6len)%nat then (e0, e1) else
      let j := zero_run_end 8 p i in
      if (i <? j)%nat && (e1 - e0 <? Z.of_nat j - Z.of_nat i)
      then longest_zero_run f p (j + 2) (Z.of_nat i) (Z.of_nat j)
      else longest_zero_run f p (i + 2) e0 e1
  end.

Definition group16 (p : IP) (i : nat) : Z := Z.lor (Z.shiftl (nth i p 0) 8) (nth (S i) p 0).

Fixpoint print_v6 (fuel : nat) (p : IP) (i : nat) (e0 e1 : Z) : string :=
  match fuel with
  | O => EmptyString
  | S f =>
      if negb (i <? IPv6len)%nat then EmptyString
      else if Z.of_nat i =? e0 then
        if 16 <=? e1 then "::"%string
        else ("::" ++ appendHex (group16 p (Z.to_nat e1))
                   ++ print_v6 f p (Z.to_nat e1 + 2) e0 e1)%string
      else ((if (0 <? i)%nat then ":" else "") ++ appendHex (group16 p i)
              ++ print_v6 f p (i + 2) e0 e1)%string
  end.

Definition IP_String (ip : IP) : string :=
  match ip with
  | [] => "<nil>"%string
  | _ =>
      let p4 := To4 ip in
      if (length p4 =? IPv4len)%nat then
        (uitoa (nth 0 p4 0) ++ "." ++ uitoa (nth 1 p4 0) ++ "."
         ++ uitoa (nth 2 p4 0) ++ "." ++ uitoa (nth 3 p4 0))%string
      else if negb (length ip =? IPv6len)%nat then ("?" ++ hexString ip)%string
      else
        let '(e0, e1) := longest_zero_run 8 ip 0 (-1) (-1) in
        let '(e0, e1) := if e1 - e0 <=? 2 then (-1, -1) else (e0, e1) in
        print_v6 8 ip 0 e0 e1
  end.

(** [IPMask.String]. *)
Definition IPMask_String (m : IPMask) : string :=
  match m with [] => "<nil>"%string | _ => hexString m end.

(** [networkNumberAndMask] and [IPNet.String]. *)
Definition networkNumberAndMask (n : IPNet) : option (IP * IPMask) :=
  let ipo := match To4 (IPNet_IP n) with
             | [] => if (length (IPNet_IP n) =? IPv6len)%nat then Some (IPNet_IP n) else None
             | ip4 => Some ip4
             end in
  match ipo with
  | None => None
  | Some ip =>
      let m := IPNet_Mask n in
      if (length m =? IPv4len)%nat then
        (if (length ip =? IPv4len)%nat then Some (ip, m) else None)
      else if (length m =? IPv6len)%nat then
        (if (length ip =? IPv4len)%nat then Some (ip, skipn 12 m) else Some (ip, m))
      else None
  end.

Definition IPNet_String (n : IPNet) : string :=
  match networkNumberAndMask n with
  | None => "<nil>"%string
  | Some (nn, m) =>
      let l := simpleMaskLength m in
      if l =? -1 then (IP_String nn ++ "/" ++ IPMask_String m)%string
      else (IP_String nn ++ "/" ++ uitoa l)%string
  end.

End GoNet.

Import GoNet.

(* ------------------------------------------------------------------ *)
(** ** [netlink]: the host routing table *)

Module Netlink.

(** A [netlink.Route]; a nil [Dst] is the default route. *)
Record Route := mkRoute { Route_Dst : option IPNet; Route_Gw : IP }.

(** netlink's [ipNetEqual]: same prefix length, [IP.Equal] addresses. *)
Definition ipNetEqual (a b : option IPNet) : bool :=
  match a, b with
  | None, None => true
  | Some x, Some y =>
      (fst (Mask_Size (IPNet_Mask x)) =? fst (Mask_Size (IPNet_Mask y)))
      && IP_Equal (IPNet_IP x) (IPNet_IP y)
  | _, _ => false
  end.

(** [RouteListFiltered(0, &Route{Dst: dst}, RT_FILTER_DST)] over a table. *)
Definition route_filter_dst (table : list Route) (dst : IPNet) : list Route :=
  filter (fun r => ipNetEqual (Route_Dst r) (Some dst) = true) table.

End Netlink.

Import Netlink.

(* ------------------------------------------------------------------ *)
(** ** Runtime types and the network-resource cache state *)

Module Types.

(** Go's [(value, error)] results of the runtime API. *)
Inductive result (A : Type) := Ok (a : A) | Err (e : string).
Arguments Ok {A} a.
Arguments Err {A} e.

(** [types.IPAMConfig] and [types.NetworkResource] (the fields read here). *)
Record IPAMConfig := mkIPAMConfig {
  Subnet : string; IPRange : string; Gateway : string }.

Record NetworkResource := mkNR {
  NR_ID : string; NR_Driver : string; NR_IPAM_Config : list IPAMConfig }.

(** A [*types.NetworkResource]: records are never mutated, so a pointer is
    the record together with the allocation it lives in; two pointers are
    equal exactly when they name the same allocation. *)
Record Ptr := mkPtr { ptr_loc : nat; ptr_val : NetworkResource }.

(** The cache maps of [Client]; one [RWMutex] guards both, so each critical
    section is one atomic step of the model. *)
Record Client := mkClient {
  nrByID : gmap string Ptr; nrByPool : gmap string Ptr }.

Definition NewClient_cache : Client := mkClient ∅ ∅.

(** The container runtime's answers ([NetworkInspect], [NetworkList]
    filtered by driver). *)
Record Runtime := mkRuntime {
  rt_inspect : string -> result NetworkResource;
  rt_list : result (list NetworkResource) }.

End Types.

Import Types.

(* ------------------------------------------------------------------ *)
(** ** The world and the effect monad *)

Module World.

Inductive Event :=
  | EvInspect (id : string)
  | EvNetworkList
  | EvRandAddr (subnet : IPNet)
  | EvRouteList (dst : IPNet)
  | EvRouteAdd (r : Route)
  | EvResolveNetwork (pool : string)
  | EvConnectHost (id : string)
  | EvGetGateway (pool : string).

(** What the daemon's calls can observe or change: the vxrNet client's
    cache, the heap allocation counter, the host routing table (with the
    error every netlink call returns when the netlink socket fails), the
    number of [RandAddr] draws so far, and the trace of external calls. *)
Record World := mkWorld {
  w_client : Client;
  w_next : nat;
  w_routes : list Route;
  w_rt_err : option string;
  w_draws : nat;
  w_trace : list Event }.

Definition set_client (c : Client) (w : World) : World :=
  mkWorld c (w_next w) (w_routes w) (w_rt_err w) (w_draws w) (w_trace w).
Definition set_routes (t : list Route) (w : World) : World :=
  mkWorld (w_client w) (w_next w) t (w_rt_err w) (w_draws w) (w_trace w).
Definition log_event (e : Event) (w : World) : World :=
  mkWorld (w_client w) (w_next w) (w_routes w) (w_rt_err w) (w_draws w) (w_trace w ++ [e]).
Definition bump_draws (w : World) : World :=
  mkWorld (w_client w) (w_next w) (w_routes w) (w_rt_err w) (S (w_draws w)) (w_trace w).

(** [&nr] where [nr] escapes: a fresh allocation. *)
Definition alloc (nr : NetworkResource) (w : World) : Ptr * World :=
  (mkPtr (w_next w) nr,
   mkWorld (w_client w) (S (w_next w)) (w_routes w) (w_rt_err w) (w_draws w) (w_trace w)).

(** Outcomes of a Go call: a normal return, a returned error, a runtime
    panic, or a loop still running when the fuel ran out. *)
Inductive outcome (A : Type) :=
  | Done (a : A) (w : World)
  | Fail (e : string) (w : World)
  | Panic (w : World)
  | OutOfFuel (w : World).
Arguments Done {A} a w.
Arguments Fail {A} e w.
Arguments Panic {A} w.
Arguments OutOfFuel {A} w.

Definition M (A : Type) := World -> outcome A.

Definition ret {A} (a : A) : M A := fun w => Done a w.

Definition bind {A B} (m : M A) (k : A -> M B) : M B :=
  fun w => match m w with
           | Done a w' => k a w'
           | Fail e w' => Fail e w'
           | Panic w' => Panic w'
           | OutOfFuel w' => OutOfFuel w'
           end.

Definition fail {A} (e : string) : M A := fun w => Fail e w.

Notation "x <-- m ;; k" := (bind m (fun x => k))
  (at level 100, m at next level, right associativity).

Definition world_of {A} (o : outcome A) : World :=
  match o with Done _ w | Fail _ w | Panic w | OutOfFuel w => w end.

End World.

Import World.

(* ------------------------------------------------------------------ *)
(** ** [docker/client/client.go] *)

Module DockerClient.

(** [poolFromNR]: the first IPAM config entry with a non-empty subnet. *)
Fixpoint poolFromConfig (cs : list IPAMConfig) : result string :=
  match cs with
  | [] => Err "pool not found"
  | c :: cs' => if negb (String.eqb (Subnet c) "") then Ok (Subnet c)
                else poolFromConfig cs'
  end.

Definition poolFromNR (nr : Ptr) : result string :=
  poolFromConfig (NR_IPAM_Config (ptr_val nr)).

(** [cacheNetworkResource] (its whole body runs under the write lock). *)
Definition cacheNetworkResource (nr : Ptr) (c : Client) : Client :=
  match poolFromNR nr with
  | Err _ => c            (* "failed to get pool from network resource, not caching" *)
  | Ok pool =>
      mkClient (<[NR_ID (ptr_val nr) := nr]> (nrByID c))
               (<[pool := nr]> (nrByPool c))
  end.

Definition cache_nr (nr : Ptr) : M unit :=
  fun w => Done tt (set_client (cacheNetworkResource nr (w_client w)) w).

(** [GetNetworkResourceByID]. *)
Definition GetNetworkResourceByID (rt : Runtime) (id : string) : M Ptr :=
  fun w =>
    match nrByID (w_client w) !! id with
    | Some nr => Done nr w                          (* hit under the read lock *)
    | None =>
        let w := log_event (EvInspect id) w in
        match rt_inspect rt id with
        | Err e => Fail e w
        | Ok v =>
            let '(nr, w) := alloc v w in
            (_ <-- cache_nr nr ;; ret nr) w
        end
    end.

(** The loop of [GetNetworkResourceByPool] over the listed networks. *)
Fixpoint byPool_scan (rt : Runtime) (pool : string) (nl : list NetworkResource)
  : M (option Ptr) :=
  match nl with
  | [] => ret None
  | n :: nl' =>
      fun w =>
        match GetNetworkResourceByID rt (NR_ID n) w with
        | Fail _ w' => byPool_scan rt pool nl' w'          (* continue *)
        | Done tnr w' =>
            let tp := match poolFromNR tnr with Ok s => s | Err _ => ""%string end in
            if String.eqb tp pool then Done (Some tnr) w'
            else byPool_scan rt pool nl' w'
        | Panic w' => Panic w'
        | OutOfFuel w' => OutOfFuel w'
        end
  end.

(** [GetNetworkResourceByPool]; [Done None] is Go's [(nil, nil)]. *)
Definition GetNetworkResourceByPool (rt : Runtime) (pool : string) : M (option Ptr) :=
  fun w =>
    match nrByPool (w_client w) !! pool with
    | Some nr => Done (Some nr) w
    | None =>
        let w := log_event EvNetworkList w in
        match rt_list rt with
        | Err e => Fail e w
        | Ok nl => byPool_scan rt pool nl w
        end
    end.

End DockerClient.

Import DockerClient.

(* ------------------------------------------------------------------ *)
(** ** [vxrIpam/driver.go] *)

Module VxrIpam.

(** The IPAM protocol records of [go-plugins-helpers/ipam]. *)
Record RequestPoolRequest := mkRequestPoolRequest {
  RPReq_AddressSpace : string; RPReq_Pool : string; RPReq_SubPool : string;
  RPReq_Options : gmap string string; RPReq_V6 : bool }.

Record RequestPoolResponse := mkRequestPoolResponse {
  RPResp_PoolID : string; RPResp_Pool : string }.

Record ReleasePoolRequest := mkReleasePoolRequest { RelPReq_PoolID : string }.

Record RequestAddressRequest := mkRequestAddressRequest {
  RAReq_PoolID : string; RAReq_Address : string;
  RAReq_Options : gmap string string }.

Record RequestAddressResponse := mkRequestAddressResponse {
  RAResp_Address : string }.

Record ReleaseAddressRequest := mkReleaseAddressRequest {
  RelAReq_PoolID : string; RelAReq_Address : string }.

(** The driver's collaborators: the runtime behind the vxrNet client's
    cache, [iputil.RandAddr] (its k-th answer for a subnet), and the vxrNet
    driver's [ConnectHost] and [GetGatewayBySubnet]. *)
Record Env := mkEnv {
  env_runtime : Runtime;
  env_rand : IPNet -> nat -> IP;
  env_connect_host : string -> option string;
  env_gateway : string -> option IPNet * option string }.

(** [GetCapabilities] and [GetDefaultAddressSpaces]: empty responses. *)
Record CapabilitiesResponse := mkCapabilitiesResponse {
  RequiresMACAddress : bool; RequiresRequestReplay : bool }.

Record AddressSpacesResponse := mkAddressSpacesResponse {
  LocalDefaultAddressSpace : string; GlobalDefaultAddressSpace : string }.

Definition GetCapabilities : M CapabilitiesResponse :=
  ret (mkCapabilitiesResponse false false).

Definition GetDefaultAddressSpaces : M AddressSpacesResponse :=
  ret (mkAddressSpacesResponse "" "").

Definition RequestPool (r : RequestPoolRequest) : M RequestPoolResponse :=
  ret (mkRequestPoolResponse (RPReq_Pool r) (RPReq_Pool r)).

Definition ReleasePool (r : ReleasePoolRequest) : M unit := ret tt.

Definition ReleaseAddress (r : ReleaseAddressRequest) : M unit := ret tt.

(** [iputil.RandAddr(subnet)]. *)
Definition RandAddr (env : Env) (subnet : IPNet) : M IP :=
  fun w => Done (env_rand env subnet (w_draws w))
                (bump_draws (log_event (EvRandAddr subnet) w)).

(** [netlink.RouteListFiltered(0, &netlink.Route{Dst: dst}, RT_FILTER_DST)]. *)
Definition RouteListFiltered (dst : IPNet) : M (list Route) :=
  fun w =>
    let w := log_event (EvRouteList dst) w in
    match w_rt_err w with
    | Some e => Fail e w
    | None => Done (route_filter_dst (w_routes w) dst) w
    end.

(** [netlink.RouteAdd]: the kernel refuses a second route to the same
    destination. *)
Definition RouteAdd (r : Route) : M unit :=
  fun w =>
    let w := log_event (EvRouteAdd r) w in
    match w_rt_err w with
    | Some e => Fail e w
    | None =>
        if existsb (fun r' => ipNetEqual (Route_Dst r') (Route_Dst r)) (w_routes w)
        then Fail "file exists" w
        else Done tt (set_routes (r :: w_routes w) w)
    end.

(** Modelled from the spec: [vxrNet.Driver.GetNetworkResourceBySubnet]
    (package vxrNet is not among the sources); the spec resolves the owning
    network through the cache's pool lookup. *)
Definition GetNetworkResourceBySubnet (env : Env) (pool : string) : M (option Ptr) :=
  fun w => GetNetworkResourceByPool (env_runtime env) pool
             (log_event (EvResolveNetwork pool) w).

(** [vxrNet.Driver.ConnectHost(id)]: only its error is used. *)
Definition ConnectHost (env : Env) (id : string) : M unit :=
  fun w =>
    let w := log_event (EvConnectHost id) w in
    match env_connect_host env id with
    | Some e => Fail e w
    | None => Done tt w
    end.

(** [vxrNet.Driver.GetGatewayBySubnet(pool)]: [(gw, err)]. *)
Definition GetGatewayBySubnet (env : Env) (pool : string) : M (option IPNet) :=
  fun w =>
    let w := log_event (EvGetGateway pool) w in
    match env_gateway env pool with
    | (_, Some e) => Fail e w
    | (gw, None) => Done gw w
    end.

(** The candidate loop: [for len(routes) > 0 { ... }]. *)
Fixpoint candidate_loop (env : Env) (fuel : nat) (subnet : IPNet) (addr : IPNet)
    (routes : list Route) : M IPNet :=
  match fuel with
  | O => fun w => OutOfFuel w
  | S f =>
      match routes with
      | [] => ret addr
      | _ :: _ =>
          addr <-- (match IPNet_IP addr with
                    | [] => ip <-- RandAddr env subnet ;; ret (mkIPNet ip (IPNet_Mask addr))
                    | _ => ret addr
                    end) ;;
          routes <-- RouteListFiltered addr ;;
          candidate_loop env f subnet addr routes
      end
  end.

Definition gateway_request_type : string := "com.docker.network.gateway".

(** [r.Options["RequestAddressType"]]: a missing key reads as "". *)
Definition request_address_type (r : RequestAddressRequest) : string :=
  match RAReq_Options r !! "RequestAddressType"%string with
  | Some v => v
  | None => ""%string
  end.

(** [RequestAddress]. A failed [ParseCIDR] is only logged; [subnet] is then
    nil and [subnet.Mask] is a nil dereference. *)
Definition RequestAddress (env : Env) (fuel : nat) (r : RequestAddressRequest)
  : M RequestAddressResponse :=
  fun w =>
    match ParseCIDR (RAReq_PoolID r) with
    | None => Panic w
    | Some (_, subnet) =>
        let addr := mkIPNet (ParseIP (RAReq_Address r)) (IPNet_Mask subnet) in
        if String.eqb (request_address_type r) gateway_request_type then
          Done (mkRequestAddressResponse (IPNet_String addr)) w
        else
          let ml := snd (Mask_Size (IPNet_Mask addr)) in
          let addr := mkIPNet (IPNet_IP addr) (CIDRMask ml ml) in
          (addr <-- candidate_loop env fuel subnet addr [mkRoute None []] ;;
           nr <-- GetNetworkResourceBySubnet env (RAReq_PoolID r) ;;
           match nr with
           | None => fail "failed to get network from pool"
           | Some nr =>
               _ <-- ConnectHost env (NR_ID (ptr_val nr)) ;;
               gw <-- GetGatewayBySubnet env (RAReq_PoolID r) ;;
               match gw with
               | None => fun w => Panic w                  (* gw.IP on a nil gw *)
               | Some gw =>
                   _ <-- RouteAdd (mkRoute (Some addr) (IPNet_IP gw)) ;;
                   ret (mkRequestAddressResponse
                          (IPNet_String (mkIPNet (IPNet_IP addr) (IPNet_Mask subnet))))
               end
           end) w
    end.

End VxrIpam.

Import VxrIpam.

(* ------------------------------------------------------------------ *)
(** ** Properties and fixtures *)

Module Props.

(** One atomic cache operation against the runtime [rt]: a lookup by ID or
    by pool, with whatever result it returns. *)
Definition cache_step (rt : Runtime) (w w' : World) : Prop :=
  (exists id, world_of (GetNetworkResourceByID rt id w) = w') \/
  (exists pool, world_of (GetNetworkResourceByPool rt pool w) = w').

(** Every ID entry sits under its record's own ID, has a derivable pool,
    and the pool index has an entry with that pool. *)
Definition index_coherent (c : Client) : Prop :=
  forall id p, nrByID c !! id = Some p ->
    NR_ID (ptr_val p) = id /\
    exists P q, poolFromNR p = Ok P /\ nrByPool c !! P = Some q /\ poolFromNR q = Ok P.

(** The two entries are the very same record. *)
Definition index_identical (c : Client) : Prop :=
  forall id p, nrByID c !! id = Some p ->
    exists P, poolFromNR p = Ok P /\ nrByPool c !! P = Some p.

(** The runtime never reports two different networks with one subnet. *)
Definition unique_subnets (rt : Runtime) : Prop :=
  forall i j n1 n2 P,
    rt_inspect rt i = Ok n1 -> rt_inspect rt j = Ok n2 ->
    poolFromConfig (NR_IPAM_Config n1) = Ok P ->
    poolFromConfig (NR_IPAM_Config n2) = Ok P ->
    NR_ID n1 = NR_ID n2.

(** Every cached record is one the runtime returned. *)
Definition from_runtime (rt : Runtime) (c : Client) : Prop :=
  (forall id p, nrByID c !! id = Some p -> exists i, rt_inspect rt i = Ok (ptr_val p)) /\
  (forall P p, nrByPool c !! P = Some p -> exists i, rt_inspect rt i = Ok (ptr_val p)).

(** An address of the pool's family: an IPv4 address for a 4-byte mask, a
    16-byte address that is not IPv4-mapped for a 16-byte mask. *)
Definition same_family (ip : IP) (m : IPMask) : Prop :=
  (length m = 4%nat /\ length (To4 ip) = 4%nat) \/
  (length m = 16%nat /\ length ip = 16%nat /\ To4 ip = []).

(** The host mask the candidate loop queries with. *)
Definition host_mask (subnet : IPNet) : IPMask :=
  let ml := snd (Mask_Size (IPNet_Mask subnet)) in CIDRMask ml ml.

(** The response address built from a candidate [a]. *)
Definition response_for (subnet : IPNet) (a : IP) : RequestAddressResponse :=
  mkRequestAddressResponse (IPNet_String (mkIPNet a (IPNet_Mask subnet))).

Definition is_gateway_request (r : RequestAddressRequest) : Prop :=
  request_address_type r = gateway_request_type.

(** Every pool-index entry sits under its record's derived subnet. *)
Definition pool_keyed (c : Client) : Prop :=
  forall P p, nrByPool c !! P = Some p -> poolFromNR p = Ok P.

(** [tp, _ := poolFromNR(tnr)]: the pool compared in the pool scan, with a
    failed derivation read as "". *)
Definition scanned_pool (p : Ptr) : string :=
  match poolFromNR p with Ok s => s | Err _ => ""%string end.

(** An operation that leaves the routing table alone, whatever its outcome. *)
Definition routes_kept {A} (m : M A) : Prop :=
  forall w, w_routes (world_of (m w)) = w_routes w.

(** An operation that leaves the routing table alone unless it returns. *)
Definition routes_kept_unless_done {A} (m : M A) : Prop :=
  forall w, match m w with
            | Done _ _ => True
            | o => w_routes (world_of o) = w_routes w
            end.

(** [tp] of the pool scan, for a record. *)
Definition nr_pool (nr : NetworkResource) : string :=
  match poolFromConfig (NR_IPAM_Config nr) with Ok s => s | Err _ => ""%string end.

(** The record a pool scan over [nl] is expected to find: the first listed
    network whose inspection succeeds with a record for [pool]; a network
    whose inspection fails is passed over. *)
Fixpoint first_match (rt : Runtime) (pool : string) (nl : list NetworkResource)
  : option NetworkResource :=
  match nl with
  | [] => None
  | n :: nl' =>
      match rt_inspect rt (NR_ID n) with
      | Ok nr => if String.eqb (nr_pool nr) pool then Some nr else first_match rt pool nl'
      | Err _ => first_match rt pool nl'
      end
  end.

(** Inspecting a network by the ID of a record the runtime returned gives
    that record back. *)
Definition inspect_by_own_id (rt : Runtime) : Prop :=
  forall i nr, rt_inspect rt i = Ok nr -> rt_inspect rt (NR_ID nr) = Ok nr.

(** Every ID-index entry is what inspecting its key gives. *)
Definition byID_inspected (rt : Runtime) (c : Client) : Prop :=
  forall id p, nrByID c !! id = Some p -> rt_inspect rt id = Ok (ptr_val p).

End Props.

Import Props.

Module Fixtures.

Definition pool24 : string := "10.1.1.0/24".

Definition host32 (a b c d : Z) : IPNet := mkIPNet (IPv4 a b c d) (CIDRMask 32 32).

Definition nrA : NetworkResource :=
  mkNR "A" "vxrNet" [mkIPAMConfig "" "" ""; mkIPAMConfig "10.1.1.0/24" "" "10.1.1.1"].
Definition nrB : NetworkResource :=
  mkNR "B" "vxrNet" [mkIPAMConfig "10.1.1.0/24" "" "10.1.1.1"].
Definition nrNoSubnet : NetworkResource :=
  mkNR "C" "vxrNet" [mkIPAMConfig "" "" ""].

(** A runtime with two vxrNet networks on one subnet and one without any. *)
Definition runtime0 : Runtime :=
  mkRuntime (fun id => if String.eqb id "A" then Ok nrA
                       else if String.eqb id "B" then Ok nrB
                       else if String.eqb id "C" then Ok nrNoSubnet
                       else Err "network not found")
            (Ok [nrA; nrB]).

(** [RandAddr] answering 10.1.1.(5+k) for its k-th draw. *)
Definition env0 : Env :=
  mkEnv runtime0 (fun _ k => IPv4 10 1 1 (Z.of_nat (5 + k))) (fun _ => None)
        (fun _ => (Some (mkIPNet (IPv4 10 1 1 1) (CIDRMask 24 32)), None)).

(** A host with a host route to 10.1.1.5/32. *)
Definition world0 : World :=
  mkWorld NewClient_cache 0 [mkRoute (Some (host32 10 1 1 5)) (IPv4 10 1 1 1)] None 0 [].

(** [RandAddr] answering 10.1.1.(6+k) for its k-th draw. *)
Definition env1 : Env :=
  mkEnv runtime0 (fun _ k => IPv4 10 1 1 (Z.of_nat (6 + k))) (fun _ => None)
        (env_gateway env0).

Definition gateway_opts : gmap string string :=
  {[ "RequestAddressType"%string := gateway_request_type ]}.

Definition req (pool addr : string) (gw : bool) : RequestAddressRequest :=
  mkRequestAddressRequest pool addr (if gw then gateway_opts else ∅).

(** A runtime that also answers the name "net-a" with network "A", and
    lists the subnet-less network "C" before "A". *)
Definition runtime_alias : Runtime :=
  mkRuntime (fun id => if String.eqb id "net-a" then Ok nrA
                       else rt_inspect runtime0 id)
            (Ok [nrNoSubnet; nrA]).

(** A listed network "G" (on 10.1.1.0/24) that can no longer be inspected,
    listed before "A". *)
Definition nrGone : NetworkResource :=
  mkNR "G" "vxrNet" [mkIPAMConfig "10.1.1.0/24" "" "10.1.1.1"].

Definition runtime_skip : Runtime :=
  mkRuntime (rt_inspect runtime0) (Ok [nrGone; nrA]).

End Fixtures.

Import Fixtures.

(* ------------------------------------------------------------------ *)
(** ** Pool derivation *)

Section PoolDerivation.

Lemma poolFromConfig_Ok (cs : list IPAMConfig) (P : string) :
  poolFromConfig cs = Ok P <->
  exists pre c post, cs = pre ++ c :: post /\
    Forall (fun c => Subnet c = ""%string) pre /\ Subnet c = P /\ P <> ""%string.
Proof.
  induction cs as [|c cs IH]; simpl.
  - split; [discriminate|].
    intros (pre & c & post & Heq & _). destruct pre; discriminate.
  - destruct (String.eqb (Subnet c) "") eqn:He; simpl.
    + apply String.eqb_eq in He. rewrite IH. split.
      * intros (pre & c' & post & -> & Hpre & Hs & Hne).
        exists (c :: pre), c', post. repeat split; auto.
      * intros (pre & c' & post & Heq & Hpre & Hs & Hne).
        destruct pre as [|c0 pre]; simpl in Heq; injection Heq as -> Heq.
        -- congruence.
        -- exists pre, c', post. inversion Hpre; subst. auto.
    + apply String.eqb_neq in He. split.
      * intros H. injection H as <-. exists [], c, cs. repeat split; auto.
      * intros (pre & c' & post & Heq & Hpre & Hs & Hne).
        destruct pre as [|c0 pre]; simpl in Heq; injection Heq as -> Heq.
        -- now subst.
        -- inversion Hpre; congruence.
Qed.

Lemma poolFromConfig_Err (cs : list IPAMConfig) (e : string) :
  poolFromConfig cs = Err e <->
  e = "pool not found"%string /\ Forall (fun c => Subnet c = ""%string) cs.
Proof.
  induction cs as [|c cs IH]; simpl.
  - split; [intros H; injection H as <-; auto | intros [-> _]; reflexivity].
  - destruct (String.eqb (Subnet c) "") eqn:He; simpl.
    + apply String.eqb_eq in He. rewrite IH. split.
      * intros [-> H]. auto.
      * intros [-> H]. inversion H; auto.
    + apply String.eqb_neq in He. split; [discriminate|].
      intros [_ H]. inversion H; congruence.
Qed.

End PoolDerivation.

(** C7: deriving a pool from a network resource returns the subnet of the
    first IPAM config entry whose subnet is non-empty, whatever the entries
    before (all empty) and after it hold, and fails with "pool not found"
    exactly when every entry's subnet is empty. *)
Theorem poolFromNR_first_nonempty_subnet (nr : Ptr) :
  (forall P, poolFromNR nr = Ok P <->
     exists pre c post, NR_IPAM_Config (ptr_val nr) = pre ++ c :: post /\
       Forall (fun c => Subnet c = ""%string) pre /\ Subnet c = P /\ P <> ""%string) /\
  (poolFromNR nr = Err "pool not found" <->
     Forall (fun c => Subnet c = ""%string) (NR_IPAM_Config (ptr_val nr))) /\
  (forall e, poolFromNR nr = Err e -> e = "pool not found"%string).
Proof.
  unfold poolFromNR. split; [|split].
  - intros P. apply poolFromConfig_Ok.
  - rewrite poolFromConfig_Err. tauto.
  - intros e H. apply poolFromConfig_Err in H. tauto.
Qed.

(* ------------------------------------------------------------------ *)
(** ** Stateless protocol calls *)

(** C8: [RequestPool] answers with the requested pool as both [PoolID] and
    [Pool], never fails, and leaves the world as it found it, whatever
    calls came before. *)
Theorem RequestPool_echoes_pool (r : RequestPoolRequest) (w : World) :
  RequestPool r w = Done (mkRequestPoolResponse (RPReq_Pool r) (RPReq_Pool r)) w.
Proof. reflexivity. Qed.

(** C9: [ReleaseAddress] and [ReleasePool] succeed and change nothing: the
    routing table (the released address's host route included), the cache
    and the rest of the world stay as they were. *)
Theorem Release_calls_are_noops (ra : ReleaseAddressRequest) (rp : ReleasePoolRequest)
    (w : World) :
  ReleaseAddress ra w = Done tt w /\ ReleasePool rp w = Done tt w.
Proof. split; reflexivity. Qed.

(* ------------------------------------------------------------------ *)
(** ** RequestAddress: the pool and the gateway short-cut *)

(** C2: a pool identifier that is not a CIDR ("10.1.1.0", no prefix
    length) makes [RequestAddress] panic on the nil subnet, for a gateway
    or a host request alike, instead of returning an error. *)
Theorem RequestAddress_malformed_pool_panics (env : Env) (fuel : nat) (addr : string)
    (gw : bool) (w : World) :
  RequestAddress env fuel (req "10.1.1.0" addr gw) w = Panic w.
Proof. reflexivity. Qed.


(** X13: for a gateway request whose pool parses, an empty or
    unparsable address gives no error: the answer is the address "<nil>"
    (the nil IP renders the whole [IPNet] as "<nil>") and nothing else
    happens. *)
Theorem gateway_unparsed_address_returns_nil (env : Env) (fuel : nat)
    (r : RequestAddressRequest) (w : World) (ip0 : IP) (subnet : IPNet)
    (Hgw : is_gateway_request r)
    (Hpool : ParseCIDR (RAReq_PoolID r) = Some (ip0, subnet))
    (Haddr : ParseIP (RAReq_Address r) = []) :
  RequestAddress env fuel r w = Done (mkRequestAddressResponse "<nil>") w.
Proof.
  unfold RequestAddress. rewrite Hpool, Haddr.
  unfold is_gateway_request in Hgw. rewrite Hgw, String.eqb_refl. reflexivity.
Qed.

Lemma gateway_unparsed_address_returns_nil_witness :
  ParseIP "" = [] /\
  RequestAddress env0 1 (req pool24 "" true) world0
  = Done (mkRequestAddressResponse "<nil>") world0.
Proof.
  split; [reflexivity|].
  apply (gateway_unparsed_address_returns_nil env0 1 (req pool24 "" true) world0
           (IPv4 10 1 1 0) (mkIPNet [10; 1; 1; 0] (CIDRMask 24 32))).
  - reflexivity.
  - vm_compute. reflexivity.
  - reflexivity.
Defined.

Section GatewayShortCut.

Lemma CIDRMask_32 (n : Z) :
  0 <= n <= 32 ->
  length (CIDRMask n 32) = 4%nat /\ simpleMaskLength (CIDRMask n 32) = n.
Proof.
  intros Hn.
  assert (H : forallb (fun k => (length (CIDRMask (Z.of_nat k) 32) =? 4)%nat
                                && (simpleMaskLength (CIDRMask (Z.of_nat k) 32) =? Z.of_nat k))
                      (seq 0 33) = true) by (vm_compute; reflexivity).
  rewrite forallb_forall in H. specialize (H (Z.to_nat n)).
  rewrite in_seq, Z2Nat.id in H by lia.
  specialize (H ltac:(lia)). apply andb_prop in H as [H1 H2].
  apply Nat.eqb_eq in H1. apply Z.eqb_eq in H2. auto.
Qed.

Lemma CIDRMask_128 (n : Z) :
  0 <= n <= 128 ->
  length (CIDRMask n 128) = 16%nat /\ simpleMaskLength (CIDRMask n 128) = n.
Proof.
  intros Hn.
  assert (H : forallb (fun k => (length (CIDRMask (Z.of_nat k) 128) =? 16)%nat
                                && (simpleMaskLength (CIDRMask (Z.of_nat k) 128) =? Z.of_nat k))
                      (seq 0 129) = true) by (vm_compute; reflexivity).
  rewrite forallb_forall in H. specialize (H (Z.to_nat n)).
  rewrite in_seq, Z2Nat.id in H by lia.
  specialize (H ltac:(lia)). apply andb_prop in H as [H1 H2].
  apply Nat.eqb_eq in H1. apply Z.eqb_eq in H2. auto.
Qed.

(** The mask of a parsed CIDR is a canonical mask of 4 or 16 bytes. *)
Lemma ParseCIDR_mask (s : string) (ip : IP) (sn : IPNet) :
  ParseCIDR s = Some (ip, sn) ->
  exists n, (IPNet_Mask sn = CIDRMask n 32 /\ 0 <= n <= 32) \/
            (IPNet_Mask sn = CIDRMask n 128 /\ 0 <= n <= 128).
Proof.
  unfold ParseCIDR.
  destruct (byteIndex (bytes_of s) 47) as [i|]; [|discriminate].
  set (addr := firstn i (bytes_of s)). set (mask := skipn (S i) (bytes_of s)).
  destruct (parseIPv4 addr) as [|b bs] eqn:H4;
    destruct (dtoi mask) as [[n i'] ok];
    match goal with |- (if ?c then _ else _) = _ -> _ => destruct c eqn:Hc end;
    try discriminate; intros Heq; injection Heq as <- <-; simpl;
    repeat rewrite orb_false_iff in Hc; exists n;
    destruct Hc as [[_ Hlt] Hgt]; apply Z.ltb_ge in Hlt, Hgt;
    unfold IPv4len, IPv6len in Hgt; simpl in Hgt.
  - right. split; [reflexivity|lia].
  - left. split; [reflexivity|lia].
Qed.

Lemma ParseCIDR_mask_size (s : string) (ip : IP) (sn : IPNet) :
  ParseCIDR s = Some (ip, sn) ->
  simpleMaskLength (IPNet_Mask sn) <> -1 /\
  Mask_Size (IPNet_Mask sn) = (simpleMaskLength (IPNet_Mask sn),
                               8 * Z.of_nat (length (IPNet_Mask sn))).
Proof.
  intros H. apply ParseCIDR_mask in H as (n & [[-> Hn] | [-> Hn]]).
  - destruct (CIDRMask_32 n Hn) as [Hl Hs]. unfold Mask_Size. rewrite Hs.
    destruct (Z.eqb_spec n (-1)); [lia|]. split; [lia|reflexivity].
  - destruct (CIDRMask_128 n Hn) as [Hl Hs]. unfold Mask_Size. rewrite Hs.
    destruct (Z.eqb_spec n (-1)); [lia|]. split; [lia|reflexivity].
Qed.

Lemma To4_idem (ip : IP) : length (To4 ip) = 4%nat -> To4 (To4 ip) = To4 ip.
Proof. intros H. unfold To4 at 1. rewrite H. reflexivity. Qed.

Lemma IP_String_To4 (ip : IP) :
  length (To4 ip) = 4%nat -> IP_String (To4 ip) = IP_String ip.
Proof.
  intros H. unfold IP_String. rewrite (To4_idem ip H), H. simpl.
  destruct (To4 ip) eqn:E; [discriminate|].
  destruct ip; [discriminate|reflexivity].
Qed.

(** [IPNet.String] of an address and mask of one family. *)
Lemma IPNet_String_same_family (ip : IP) (m : IPMask) :
  same_family ip m -> simpleMaskLength m <> -1 ->
  IPNet_String (mkIPNet ip m) = (IP_String ip ++ "/" ++ uitoa (simpleMaskLength m))%string.
Proof.
  intros Hf Hm. apply Z.eqb_neq in Hm.
  unfold IPNet_String, networkNumberAndMask, IPNet_IP, IPNet_Mask.
  unfold IPv4len, IPv6len.
  destruct Hf as [[Hl H4] | [Hl [Hip H4]]].
  - destruct (To4 ip) as [|b bs] eqn:E; [discriminate|].
    rewrite Hl, H4, Nat.eqb_refl, Hm, <- E, IP_String_To4 by (rewrite E; exact H4).
    reflexivity.
  - rewrite H4, Hip, Hl. cbn -[IP_String uitoa simpleMaskLength IPMask_String].
    rewrite Hip. cbn -[IP_String uitoa simpleMaskLength IPMask_String].
    rewrite Hm. reflexivity.
Qed.

End GatewayShortCut.

(** C6 (counterexample): a gateway request whose address is not of the
    pool's family is not answered with that address under the pool's prefix
    length: an IPv6 address in an IPv4 pool renders as "<nil>", an IPv4
    address in a /64 IPv6 pool comes back as "/0". *)
Lemma gateway_family_mismatch_cex :
  RequestAddress env0 1 (req pool24 "fd00::1" true) world0
    = Done (mkRequestAddressResponse "<nil>") world0 /\
  RequestAddress env0 1 (req "fd00::/64" "10.0.0.1" true) world0
    = Done (mkRequestAddressResponse "10.0.0.1/0") world0.
Proof. split; vm_compute; reflexivity. Qed.

(** C6 (amended): for a gateway request whose pool parses and whose address
    parses to an address of the pool's family, the answer is that address
    (as Go prints it) followed by the pool's prefix length, and the world is
    untouched: no route query, no network resolution, no host attachment,
    no route installation. *)
Theorem gateway_request_returns_address_with_pool_prefix (env : Env) (fuel : nat)
    (r : RequestAddressRequest) (w : World) (ip0 : IP) (subnet : IPNet)
    (Hgw : is_gateway_request r)
    (Hpool : ParseCIDR (RAReq_PoolID r) = Some (ip0, subnet))
    (Hfam : same_family (ParseIP (RAReq_Address r)) (IPNet_Mask subnet)) :
  RequestAddress env fuel r w
  = Done (mkRequestAddressResponse
            (IP_String (ParseIP (RAReq_Address r)) ++ "/"
             ++ uitoa (fst (Mask_Size (IPNet_Mask subnet))))%string) w.
Proof.
  unfold RequestAddress. rewrite Hpool.
  unfold is_gateway_request in Hgw. rewrite Hgw, String.eqb_refl.
  destruct (ParseCIDR_mask_size _ _ _ Hpool) as [Hm Hsz].
  rewrite Hsz. simpl. rewrite IPNet_String_same_family by assumption. reflexivity.
Qed.

Lemma gateway_request_returns_address_with_pool_prefix_witness :
  is_gateway_request (req pool24 "10.1.1.1" true) /\
  RequestAddress env0 1 (req pool24 "10.1.1.1" true) world0
  = Done (mkRequestAddressResponse "10.1.1.1/24") world0.
Proof.
  split; [reflexivity|].
  refine (eq_trans (gateway_request_returns_address_with_pool_prefix env0 1
            (req pool24 "10.1.1.1" true) world0
            (IPv4 10 1 1 0) (mkIPNet [10; 1; 1; 0] (CIDRMask 24 32)) _ _ _) _).
  - reflexivity.
  - vm_compute. reflexivity.
  - left. split; reflexivity.
  - vm_compute. reflexivity.
Defined.

(* ------------------------------------------------------------------ *)
(** ** The network-resource cache *)

(** C3 (counterexample): the runtime knows network "C", but its IPAM
    configuration has no subnet; the lookup returns it and caches it in
    neither index. *)
Lemma lookup_without_subnet_not_cached_cex :
  exists p w', GetNetworkResourceByID runtime0 "C" world0 = Done p w' /\
    ptr_val p = nrNoSubnet /\
    nrByID (w_client w') !! "C"%string = None /\ w_client w' = w_client world0.
Proof.
  eexists; eexists; split; [vm_compute; reflexivity|].
  vm_compute. repeat split; reflexivity.
Qed.

(** C3 (amended): on an ID-index miss, a failed inspect returns its error
    and leaves both indexes as they were; a successful inspect returns the
    fetched record, which is cached in the ID index under its own ID and in
    the pool index under its derived subnet (one record, one write-locked
    step) when a subnet can be derived, and in neither index otherwise. *)
Theorem GetNetworkResourceByID_on_miss (rt : Runtime) (id : string) (w : World)
    (Hmiss : nrByID (w_client w) !! id = None) :
  (forall e, rt_inspect rt id = Err e ->
     exists w', GetNetworkResourceByID rt id w = Fail e w' /\ w_client w' = w_client w) /\
  (forall nr, rt_inspect rt id = Ok nr ->
     exists p w', GetNetworkResourceByID rt id w = Done p w' /\ ptr_val p = nr /\
       w_client w' =
         match poolFromConfig (NR_IPAM_Config nr) with
         | Ok P => mkClient (<[NR_ID nr := p]> (nrByID (w_client w)))
                            (<[P := p]> (nrByPool (w_client w)))
         | Err _ => w_client w
         end).
Proof.
  unfold GetNetworkResourceByID. rewrite Hmiss. split.
  - intros e He. rewrite He. eexists. split; reflexivity.
  - intros nr Hnr. rewrite Hnr. simpl. eexists; eexists. split; [reflexivity|].
    split; [reflexivity|]. simpl. unfold cacheNetworkResource, poolFromNR. simpl.
    destruct (poolFromConfig (NR_IPAM_Config nr)); reflexivity.
Qed.

Lemma GetNetworkResourceByID_on_miss_witness :
  nrByID (w_client world0) !! "A"%string = None /\
  exists p w', GetNetworkResourceByID runtime0 "A" world0 = Done p w' /\ ptr_val p = nrA /\
    w_client w' = mkClient (<[ "A"%string := p ]> ∅) (<[ pool24 := p ]> ∅).
Proof.
  split; [reflexivity|].
  destruct (GetNetworkResourceByID_on_miss runtime0 "A" world0 eq_refl) as [_ H].
  exact (H nrA eq_refl).
Defined.

Section CacheInvariant.

Variable rt : Runtime.

(** One write-locked [cacheNetworkResource] of a record the runtime gave. *)
Definition cache_insert (c c' : Client) : Prop :=
  exists i p, rt_inspect rt i = Ok (ptr_val p) /\ c' = cacheNetworkResource p c.

Lemma GetNetworkResourceByID_cache (id : string) (w : World) :
  rtc cache_insert (w_client w) (w_client (world_of (GetNetworkResourceByID rt id w))).
Proof.
  unfold GetNetworkResourceByID.
  destruct (nrByID (w_client w) !! id); [apply rtc_refl|].
  destruct (rt_inspect rt id) as [nr|e] eqn:Hi; [|apply rtc_refl].
  apply rtc_once. exists id, (mkPtr (w_next w) nr). split; [exact Hi|reflexivity].
Qed.

Lemma byPool_scan_cache (pool : string) (nl : list NetworkResource) (w : World) :
  rtc cache_insert (w_client w) (w_client (world_of (byPool_scan rt pool nl w))).
Proof.
  revert w. induction nl as [|n nl IH]; intros w; simpl; [apply rtc_refl|].
  pose proof (GetNetworkResourceByID_cache (NR_ID n) w) as H.
  destruct (GetNetworkResourceByID rt (NR_ID n) w) as [tnr w'|e w'|w'|w'] eqn:E;
    simpl in H |- *.
  - destruct (String.eqb _ pool); simpl; [exact H|].
    eapply rtc_trans; [exact H|apply IH].
  - eapply rtc_trans; [exact H|apply IH].
  - exact H.
  - exact H.
Qed.

Lemma GetNetworkResourceByPool_cache (pool : string) (w : World) :
  rtc cache_insert (w_client w) (w_client (world_of (GetNetworkResourceByPool rt pool w))).
Proof.
  unfold GetNetworkResourceByPool.
  destruct (nrByPool (w_client w) !! pool); [apply rtc_refl|].
  destruct (rt_list rt) as [nl|e]; [|apply rtc_refl].
  apply (byPool_scan_cache pool nl (log_event EvNetworkList w)).
Qed.

Lemma cache_steps_inserts (w w' : World) :
  rtc (cache_step rt) w w' -> rtc cache_insert (w_client w) (w_client w').
Proof.
  induction 1 as [w|w1 w2 w3 [[id <-]|[pool <-]] _ IH].
  - apply rtc_refl.
  - eapply rtc_trans; [apply GetNetworkResourceByID_cache|exact IH].
  - eapply rtc_trans; [apply GetNetworkResourceByPool_cache|exact IH].
Qed.

Lemma insert_coherent (c c' : Client) :
  cache_insert c c' -> index_coherent c -> index_coherent c'.
Proof.
  intros (i & nr & _ & ->) Hc id p. unfold cacheNetworkResource.
  destruct (poolFromNR nr) as [P|e] eqn:HP; [|apply Hc]. simpl.
  rewrite lookup_insert. case_decide as Hid.
  - intros Heq. injection Heq as <-. split; [done|].
    exists P, nr. rewrite lookup_insert_eq. auto.
  - intros Hl. destruct (Hc id p Hl) as (Hid' & P' & q & HP' & Hq & Hq').
    split; [exact Hid'|]. exists P'.
    rewrite lookup_insert. case_decide as HPP.
    + subst P'. exists nr. auto.
    + exists q. auto.
Qed.

Lemma insert_from_runtime (c c' : Client) :
  cache_insert c c' -> from_runtime rt c -> from_runtime rt c'.
Proof.
  intros (i & nr & Hi & ->) [Hid Hpool]. unfold cacheNetworkResource.
  destruct (poolFromNR nr) as [P|e]; [|split; assumption]. split; simpl.
  - intros id p. rewrite lookup_insert. case_decide.
    + intros Heq. injection Heq as <-. eauto.
    + apply Hid.
  - intros P' p. rewrite lookup_insert. case_decide.
    + intros Heq. injection Heq as <-. eauto.
    + apply Hpool.
Qed.

Lemma insert_identical (c c' : Client) :
  unique_subnets rt -> cache_insert c c' ->
  index_coherent c -> from_runtime rt c -> index_identical c -> index_identical c'.
Proof.
  intros Hu (i & nr & Hi & ->) Hc [Hfr _] Hident id p. unfold cacheNetworkResource.
  destruct (poolFromNR nr) as [P|e] eqn:HP; [|apply Hident]. simpl.
  rewrite lookup_insert. case_decide as Hid.
  - intros Heq. injection Heq as <-. exists P. rewrite lookup_insert_eq. auto.
  - intros Hl. destruct (Hident id p Hl) as (P' & HP' & Hq). exists P'.
    split; [exact HP'|]. rewrite lookup_insert. case_decide as HPP; [|exact Hq].
    exfalso. subst P'. apply Hid.
    destruct (Hc id p Hl) as [Hidp _]. destruct (Hfr id p Hl) as [j Hj].
    rewrite <- Hidp. symmetry. exact (Hu j i (ptr_val p) (ptr_val nr) P Hj Hi HP' HP).
Qed.

Lemma empty_cache_invariants :
  index_coherent NewClient_cache /\ from_runtime rt NewClient_cache /\
  index_identical NewClient_cache.
Proof.
  split; [|split; [split|]]; intros ? ?; simpl; rewrite lookup_empty; discriminate.
Qed.

Lemma inserts_preserve (c c' : Client) :
  rtc cache_insert c c' ->
  index_coherent c -> from_runtime rt c -> (unique_subnets rt -> index_identical c) ->
  index_coherent c' /\ from_runtime rt c' /\ (unique_subnets rt -> index_identical c').
Proof.
  induction 1 as [c|c1 c2 c3 Hs _ IH]; intros Hc Hf Hi; [auto|].
  apply IH.
  - eapply insert_coherent; eassumption.
  - eapply insert_from_runtime; eassumption.
  - intros Hu. exact (insert_identical c1 c2 Hu Hs Hc Hf (Hi Hu)).
Qed.

End CacheInvariant.

(** C4 (counterexample): two vxrNet networks on one subnet. After looking
    up "A" and then "B", the ID entry of "A" holds A's record, while the pool
    entry of A's subnet holds B's record. *)
Lemma shared_subnet_splits_indexes_cex :
  let w := world_of (GetNetworkResourceByID runtime0 "B"
                       (world_of (GetNetworkResourceByID runtime0 "A" world0))) in
  rtc (cache_step runtime0) world0 w /\
  exists p, nrByID (w_client w) !! "A"%string = Some p /\ poolFromNR p = Ok pool24 /\
            nrByPool (w_client w) !! pool24 <> Some p.
Proof.
  intros w. split.
  - eapply rtc_l; [left; exists "A"%string; reflexivity|].
    eapply rtc_l; [left; exists "B"%string; reflexivity|]. apply rtc_refl.
  - exists (mkPtr 0 nrA). vm_compute. split; [reflexivity|]. split; [reflexivity|].
    discriminate.
Qed.

(** C4 (amended): after any sequence of cache lookups starting from the
    empty cache, every record in the ID index sits under its own ID, has a
    derivable subnet, and the pool index holds a record with that subnet
    under it; that record is the very same one whenever the runtime never
    reports two different networks with one subnet. *)
Theorem cache_indexes_coherent (rt : Runtime) (w0 w : World)
    (Hinit : w_client w0 = NewClient_cache)
    (Hreach : rtc (cache_step rt) w0 w) :
  index_coherent (w_client w) /\ (unique_subnets rt -> index_identical (w_client w)).
Proof.
  apply cache_steps_inserts in Hreach. rewrite Hinit in Hreach.
  destruct (empty_cache_invariants rt) as (Hc & Hf & Hi).
  destruct (inserts_preserve rt _ _ Hreach Hc Hf (fun _ => Hi)) as (H1 & _ & H3).
  auto.
Qed.

Lemma cache_indexes_coherent_witness :
  rtc (cache_step runtime0) world0
      (world_of (GetNetworkResourceByID runtime0 "A" world0)) /\
  index_coherent (w_client (world_of (GetNetworkResourceByID runtime0 "A" world0))).
Proof.
  assert (H : rtc (cache_step runtime0) world0
                (world_of (GetNetworkResourceByID runtime0 "A" world0)))
    by (apply rtc_once; left; exists "A"%string; reflexivity).
  split; [exact H|].
  exact (proj1 (cache_indexes_coherent runtime0 world0 _ eq_refl H)).
Defined.

(* ------------------------------------------------------------------ *)
(** ** RequestAddress: the candidate loop *)

Section CandidateLoop.

Lemma bind_Done {A B} (m : M A) (k : A -> M B) (w : World) (b : B) (w' : World) :
  bind m k w = Done b w' -> exists a w1, m w = Done a w1 /\ k a w1 = Done b w'.
Proof.
  unfold bind. destruct (m w) as [a w1|e w1|w1|w1]; try discriminate.
  intros H. eauto.
Qed.

Lemma route_filter_dst_nil (table : list Route) (dst : IPNet) :
  route_filter_dst table dst = [] ->
  forall r, In r table -> ipNetEqual (Route_Dst r) (Some dst) = false.
Proof.
  unfold route_filter_dst. induction table as [|r0 table IH]; [contradiction|].
  rewrite filter_cons. case_decide as Hd; [discriminate|].
  intros Hnil r [<-|Hin].
  - destruct (ipNetEqual (Route_Dst r0) (Some dst)); [contradiction|reflexivity].
  - exact (IH Hnil r Hin).
Qed.

(** A candidate leaves the loop only after a route query found nothing for
    it; the loop reads the routing table and never changes it. *)
Lemma candidate_loop_Done (env : Env) (fuel : nat) (subnet addr : IPNet)
    (routes : list Route) (w : World) (a : IPNet) (w' : World) :
  candidate_loop env fuel subnet addr routes w = Done a w' ->
  w_routes w' = w_routes w /\ IPNet_Mask a = IPNet_Mask addr /\
  (routes = [] -> a = addr) /\
  (routes <> [] -> route_filter_dst (w_routes w) a = []).
Proof.
  revert addr routes w. induction fuel as [|f IH]; intros addr routes w H;
    simpl in H; [discriminate|].
  destruct routes as [|r0 routes].
  - unfold ret in H. injection H as <- <-.
    split; [reflexivity|]. split; [reflexivity|]. split; [auto|].
    intros Hne. contradiction Hne. reflexivity.
  - apply bind_Done in H as (addr' & w1 & Hpick & Hrest).
    assert (Hc : w_routes w1 = w_routes w /\ IPNet_Mask addr' = IPNet_Mask addr).
    { destruct (IPNet_IP addr); [|injection Hpick as <- <-; auto].
      apply bind_Done in Hpick as (ip & w2 & Hrand & Hret).
      unfold RandAddr in Hrand. injection Hrand as <- <-.
      injection Hret as <- <-. auto. }
    destruct Hc as [Hr1 Hmask].
    apply bind_Done in Hrest as (found & w2 & Hquery & Hloop).
    unfold RouteListFiltered, log_event in Hquery. cbn [w_rt_err w_routes] in Hquery.
    destruct (w_rt_err w1); [discriminate|]. injection Hquery as <- <-.
    apply IH in Hloop as (Hr & Hma & Hnil & Hfil). cbn [w_routes] in Hr, Hfil.
    split; [congruence|]. split; [congruence|]. split; [discriminate|].
    intros _. rewrite <- Hr1.
    destruct (route_filter_dst (w_routes w1) addr') as [|r1 rs] eqn:E.
    + rewrite (Hnil eq_refl). exact E.
    + apply Hfil. discriminate.
Qed.

Lemma host_mask_size (s : string) (ip0 : IP) (subnet : IPNet) :
  ParseCIDR s = Some (ip0, subnet) ->
  fst (Mask_Size (host_mask subnet)) = snd (Mask_Size (IPNet_Mask subnet)).
Proof.
  intros H. unfold host_mask.
  apply ParseCIDR_mask in H as (n & [[-> Hn] | [-> Hn]]).
  - destruct (CIDRMask_32 n Hn) as [Hl Hs].
    assert (E : Mask_Size (CIDRMask n 32) = (n, 32)).
    { unfold Mask_Size. rewrite Hs, Hl. destruct (Z.eqb_spec n (-1)); [lia|reflexivity]. }
    rewrite E. reflexivity.
  - destruct (CIDRMask_128 n Hn) as [Hl Hs].
    assert (E : Mask_Size (CIDRMask n 128) = (n, 128)).
    { unfold Mask_Size. rewrite Hs, Hl. destruct (Z.eqb_spec n (-1)); [lia|reflexivity]. }
    rewrite E. reflexivity.
Qed.

End CandidateLoop.

(** C5: a host request without an explicit address that returns an address
    returns one whose host route query found nothing: no single-host route
    of the routing table at the time of the query (the table the request
    started with) is for the returned address. *)
Theorem returned_address_has_no_host_route (env : Env) (fuel : nat)
    (r : RequestAddressRequest) (w w' : World) (resp : RequestAddressResponse)
    (Hhost : ~ is_gateway_request r)
    (Haddr : RAReq_Address r = ""%string)
    (Hret : RequestAddress env fuel r w = Done resp w') :
  exists ip0 subnet a,
    ParseCIDR (RAReq_PoolID r) = Some (ip0, subnet) /\
    resp = response_for subnet a /\
    route_filter_dst (w_routes w) (mkIPNet a (host_mask subnet)) = [] /\
    forall x m gw, In (mkRoute (Some (mkIPNet x m)) gw) (w_routes w) ->
      fst (Mask_Size m) = snd (Mask_Size (IPNet_Mask subnet)) ->
      IP_Equal x a = false.
Proof.
  unfold RequestAddress in Hret.
  destruct (ParseCIDR (RAReq_PoolID r)) as [[ip0 subnet]|] eqn:Hpool; [|discriminate].
  destruct (String.eqb (request_address_type r) gateway_request_type) eqn:Hgw.
  { apply String.eqb_eq in Hgw. contradiction. }
  apply bind_Done in Hret as (cand & w1 & Hloop & Hrest).
  apply candidate_loop_Done in Hloop as (_ & Hmask & _ & Hfree).
  specialize (Hfree ltac:(discriminate)).
  cbn [IPNet_Mask] in Hmask.
  assert (Hmask' : IPNet_Mask cand = host_mask subnet) by exact Hmask.
  clear Hmask.
  (* the remaining steps end in [ret (response_for subnet (IPNet_IP cand))] *)
  assert (Hresp : resp = response_for subnet (IPNet_IP cand)).
  { apply bind_Done in Hrest as (nr & w2 & _ & Hk).
    destruct nr as [nr|]; [|discriminate].
    apply bind_Done in Hk as (u & w3 & _ & Hk).
    apply bind_Done in Hk as (gw & w4 & _ & Hk).
    destruct gw as [gw|]; [|discriminate].
    apply bind_Done in Hk as (u' & w5 & _ & Hk).
    injection Hk as <- _. reflexivity. }
  exists ip0, subnet, (IPNet_IP cand). split; [reflexivity|]. split; [exact Hresp|].
  assert (Hcand : cand = mkIPNet (IPNet_IP cand) (host_mask subnet)).
  { destruct cand as [ci cm]. cbn in Hmask' |- *. rewrite Hmask'. reflexivity. }
  rewrite <- Hcand. split; [exact Hfree|].
  intros x m gw Hin Hm.
  pose proof (route_filter_dst_nil _ _ Hfree _ Hin) as Hne.
  unfold ipNetEqual in Hne. cbn [Route_Dst IPNet_Mask IPNet_IP] in Hne.
  rewrite Hmask', (host_mask_size _ _ _ Hpool), Hm, Z.eqb_refl in Hne.
  exact Hne.
Qed.

Lemma returned_address_has_no_host_route_witness :
  ~ is_gateway_request (req pool24 "" false) /\
  RequestAddress env1 3 (req pool24 "" false) world0
  = Done (response_for (mkIPNet [10; 1; 1; 0] (CIDRMask 24 32)) (IPv4 10 1 1 6))
         (world_of (RequestAddress env1 3 (req pool24 "" false) world0)) /\
  exists ip0 subnet a,
    ParseCIDR pool24 = Some (ip0, subnet) /\
    response_for (mkIPNet [10; 1; 1; 0] (CIDRMask 24 32)) (IPv4 10 1 1 6)
    = response_for subnet a /\
    route_filter_dst (w_routes world0) (mkIPNet a (host_mask subnet)) = [] /\
    forall x m gw, In (mkRoute (Some (mkIPNet x m)) gw) (w_routes world0) ->
      fst (Mask_Size m) = snd (Mask_Size (IPNet_Mask subnet)) ->
      IP_Equal x a = false.
Proof.
  assert (Hng : ~ is_gateway_request (req pool24 "" false)) by (vm_compute; discriminate).
  assert (Hrun : RequestAddress env1 3 (req pool24 "" false) world0
    = Done (response_for (mkIPNet [10; 1; 1; 0] (CIDRMask 24 32)) (IPv4 10 1 1 6))
           (world_of (RequestAddress env1 3 (req pool24 "" false) world0)))
    by (vm_compute; reflexivity).
  split; [exact Hng|]. split; [exact Hrun|].
  exact (returned_address_has_no_host_route env1 3 (req pool24 "" false) world0 _ _
           Hng eq_refl Hrun).
Defined.

Section TakenCandidate.

(** A candidate with a matching route keeps being queried: the loop never
    clears it, so it never draws again. *)
Lemma candidate_loop_stuck (env : Env) (fuel : nat) (subnet addr : IPNet)
    (routes : list Route) (w : World) :
  IPNet_IP addr <> [] -> w_rt_err w = None ->
  route_filter_dst (w_routes w) addr <> [] -> routes <> [] ->
  exists k w', candidate_loop env fuel subnet addr routes w = OutOfFuel w' /\
    w_draws w' = w_draws w /\ w_routes w' = w_routes w /\
    w_trace w' = w_trace w ++ repeat (EvRouteList addr) k.
Proof.
  intros Hip Herr Hfound. revert routes w Herr Hfound.
  induction fuel as [|f IH]; intros routes w Herr Hfound Hne.
  - exists 0%nat, w. simpl. rewrite app_nil_r. auto.
  - destruct routes as [|r0 rs]; [contradiction|].
    destruct addr as [[|b bs] m]; [contradiction|].
    cbn [candidate_loop IPNet_IP]. unfold bind, ret, RouteListFiltered, log_event.
    cbn [w_rt_err w_routes w_trace w_draws]. rewrite Herr.
    set (w1 := mkWorld (w_client w) (w_next w) (w_routes w) None (w_draws w)
                       (w_trace w ++ [EvRouteList (mkIPNet (b :: bs) m)])).
    destruct (IH (route_filter_dst (w_routes w) (mkIPNet (b :: bs) m)) w1)
      as (k & w' & Hl & Hd & Hr & Ht); [reflexivity|exact Hfound|exact Hfound|].
    exists (S k), w'. rewrite Hl. split; [reflexivity|].
    split; [exact Hd|]. split; [exact Hr|].
    rewrite Ht. simpl. rewrite <- app_assoc. reflexivity.
Qed.

End TakenCandidate.

(** C1: a host request for the explicit address 10.1.1.5 in 10.1.1.0/24,
    on a host that already routes 10.1.1.5/32, never draws a random address:
    however long it runs, the loop only re-queries the routing table for the
    same, still taken, candidate. *)
Theorem taken_explicit_address_is_requeried_forever (env : Env) (fuel : nat) :
  exists w', RequestAddress env fuel (req pool24 "10.1.1.5" false) world0 = OutOfFuel w' /\
    w_draws w' = 0%nat /\ w_routes w' = w_routes world0 /\
    forall e, In e (w_trace w') -> e = EvRouteList (host32 10 1 1 5).
Proof.
  unfold RequestAddress.
  assert (Hp : ParseCIDR (RAReq_PoolID (req pool24 "10.1.1.5" false))
               = Some (IPv4 10 1 1 0, mkIPNet [10; 1; 1; 0] (CIDRMask 24 32)))
    by (vm_compute; reflexivity).
  rewrite Hp.
  assert (Hg : String.eqb (request_address_type (req pool24 "10.1.1.5" false))
                 gateway_request_type = false) by reflexivity.
  rewrite Hg. cbv zeta.
  assert (Ha : mkIPNet (IPNet_IP (mkIPNet (ParseIP (RAReq_Address (req pool24 "10.1.1.5" false)))
                                          (IPNet_Mask (mkIPNet [10; 1; 1; 0] (CIDRMask 24 32)))))
                       (CIDRMask (snd (Mask_Size (IPNet_Mask
                          (mkIPNet (ParseIP (RAReq_Address (req pool24 "10.1.1.5" false)))
                                   (IPNet_Mask (mkIPNet [10; 1; 1; 0] (CIDRMask 24 32)))))))
                                 (snd (Mask_Size (IPNet_Mask
                          (mkIPNet (ParseIP (RAReq_Address (req pool24 "10.1.1.5" false)))
                                   (IPNet_Mask (mkIPNet [10; 1; 1; 0] (CIDRMask 24 32))))))))
               = host32 10 1 1 5) by (vm_compute; reflexivity).
  rewrite Ha.
  destruct (candidate_loop_stuck env fuel (mkIPNet [10; 1; 1; 0] (CIDRMask 24 32))
              (host32 10 1 1 5) [mkRoute None []] world0)
    as (k & w' & Hl & Hd & Hr & Ht);
    [discriminate|reflexivity|vm_compute; discriminate|discriminate|].
  exists w'. unfold bind at 1. rewrite Hl.
  split; [reflexivity|]. split; [exact Hd|]. split; [exact Hr|].
  rewrite Ht. simpl. intros e He. apply repeat_spec in He. exact He.
Qed.

(* ------------------------------------------------------------------ *)
(** ** Cache lookups: hits, refetches and the pool scan *)

Section CacheLookups.

Variable rt : Runtime.

Lemma GetNetworkResourceByID_Done (id : string) (w : World) (p : Ptr) (w1 : World) :
  GetNetworkResourceByID rt id w = Done p w1 ->
  (nrByID (w_client w) !! id = Some p /\ w1 = w) \/
  (nrByID (w_client w) !! id = None /\ rt_inspect rt id = Ok (ptr_val p) /\
   w_client w1 = cacheNetworkResource p (w_client w)).
Proof.
  unfold GetNetworkResourceByID.
  destruct (nrByID (w_client w) !! id) as [q|] eqn:Hl.
  - intros H. injection H as <- <-. left. auto.
  - destruct (rt_inspect rt id) as [nr|e] eqn:Hi; [|discriminate].
    intros H. cbn in H. injection H as <- <-. right. auto.
Qed.

Lemma byPool_scan_found (pool : string) (nl : list NetworkResource) (w : World)
    (p : Ptr) (w' : World) :
  byPool_scan rt pool nl w = Done (Some p) w' -> scanned_pool p = pool.
Proof.
  revert w. induction nl as [|n nl IH]; intros w; simpl; [discriminate|].
  destruct (GetNetworkResourceByID rt (NR_ID n) w) as [tnr w1|e w1|w1|w1];
    try discriminate; [|apply IH].
  destruct (String.eqb_spec (match poolFromNR tnr with Ok s => s | Err _ => ""%string end) pool)
    as [Heq|Hne]; [|apply IH].
  intros H. injection H as <- _. exact Heq.
Qed.

Lemma insert_pool_keyed (c c' : Client) :
  cache_insert rt c c' -> pool_keyed c -> pool_keyed c'.
Proof.
  intros (i & nr & _ & ->) Hk P p. unfold cacheNetworkResource.
  destruct (poolFromNR nr) as [P'|e] eqn:HP; [|apply Hk]. simpl.
  rewrite lookup_insert. case_decide as HPP.
  - intros Heq. injection Heq as <-. subst. exact HP.
  - apply Hk.
Qed.

Lemma inserts_pool_keyed (c c' : Client) :
  rtc (cache_insert rt) c c' -> pool_keyed c -> pool_keyed c'.
Proof.
  induction 1 as [c|c1 c2 c3 Hs _ IH]; intros Hk; [exact Hk|].
  apply IH. exact (insert_pool_keyed _ _ Hs Hk).
Qed.

Lemma inserts_coherent (c c' : Client) :
  rtc (cache_insert rt) c c' -> index_coherent c -> index_coherent c'.
Proof.
  induction 1 as [c|c1 c2 c3 Hs _ IH]; intros Hk; [exact Hk|].
  apply IH. exact (insert_coherent rt _ _ Hs Hk).
Qed.

Lemma reachable_pool_keyed (w0 w : World) :
  w_client w0 = NewClient_cache -> rtc (cache_step rt) w0 w -> pool_keyed (w_client w).
Proof.
  intros Hinit Hreach. apply cache_steps_inserts in Hreach. rewrite Hinit in Hreach.
  apply (inserts_pool_keyed _ _ Hreach). intros P p. simpl. rewrite lookup_empty.
  discriminate.
Qed.

Lemma reachable_coherent (w0 w : World) :
  w_client w0 = NewClient_cache -> rtc (cache_step rt) w0 w -> index_coherent (w_client w).
Proof.
  intros Hinit Hreach. apply cache_steps_inserts in Hreach. rewrite Hinit in Hreach.
  apply (inserts_coherent _ _ Hreach). apply (empty_cache_invariants rt).
Qed.

Lemma scanned_pool_Ok (p : Ptr) (pool : string) :
  pool <> ""%string -> scanned_pool p = pool -> poolFromNR p = Ok pool.
Proof.
  unfold scanned_pool. destruct (poolFromNR p); [congruence|].
  intros Hne Heq. subst. contradiction Hne. reflexivity.
Qed.

(** The scan stops on a record for [pool]; by then the pool index has an
    entry for [pool]. *)
Lemma byPool_scan_found_cached (pool : string) (nl : list NetworkResource)
    (w : World) (p : Ptr) (w' : World) :
  pool <> ""%string -> index_coherent (w_client w) ->
  byPool_scan rt pool nl w = Done (Some p) w' ->
  exists q, nrByPool (w_client w') !! pool = Some q.
Proof.
  intros Hne. revert w. induction nl as [|n nl IH]; intros w Hc; simpl; [discriminate|].
  pose proof (GetNetworkResourceByID_cache rt (NR_ID n) w) as Hcache.
  destruct (GetNetworkResourceByID rt (NR_ID n) w) as [tnr w1|e w1|w1|w1] eqn:E;
    try discriminate; cbn [world_of] in Hcache.
  - destruct (String.eqb_spec (match poolFromNR tnr with Ok s => s | Err _ => ""%string end) pool)
      as [Heq|Hneq].
    + intros H. injection H as <- <-.
      apply (scanned_pool_Ok tnr pool Hne) in Heq.
      destruct (GetNetworkResourceByID_Done _ _ _ _ E) as [[Hl ->]|(_ & _ & Hcl)].
      * destruct (Hc _ _ Hl) as (_ & P & q & HP & Hq & _).
        rewrite Heq in HP. injection HP as <-. eauto.
      * rewrite Hcl. unfold cacheNetworkResource. rewrite Heq. simpl.
        rewrite lookup_insert_eq. eauto.
    + apply IH. exact (inserts_coherent _ _ Hcache Hc).
  - apply IH. exact (inserts_coherent _ _ Hcache Hc).
Qed.

End CacheLookups.

(** X7: a lookup by ID that returned a record with that very ID and a
    derivable subnet has cached it: the same lookup again returns the same
    record (pointer) and changes nothing, with no runtime call. *)
Theorem GetNetworkResourceByID_repeat_hits (rt : Runtime) (id : string)
    (w w1 : World) (p : Ptr) (P : string)
    (H1 : GetNetworkResourceByID rt id w = Done p w1)
    (Hid : NR_ID (ptr_val p) = id) (HP : poolFromNR p = Ok P) :
  GetNetworkResourceByID rt id w1 = Done p w1.
Proof.
  destruct (GetNetworkResourceByID_Done rt _ _ _ _ H1) as [[Hl ->]|(_ & _ & Hc)];
    unfold GetNetworkResourceByID.
  - rewrite Hl. reflexivity.
  - rewrite Hc. unfold cacheNetworkResource. rewrite HP. cbn [nrByID].
    rewrite Hid, lookup_insert_eq. reflexivity.
Qed.

Lemma GetNetworkResourceByID_repeat_hits_witness :
  GetNetworkResourceByID runtime0 "A" world0
    = Done (mkPtr 0 nrA) (world_of (GetNetworkResourceByID runtime0 "A" world0)) /\
  NR_ID (ptr_val (mkPtr 0 nrA)) = "A"%string /\ poolFromNR (mkPtr 0 nrA) = Ok pool24 /\
  GetNetworkResourceByID runtime0 "A" (world_of (GetNetworkResourceByID runtime0 "A" world0))
    = Done (mkPtr 0 nrA) (world_of (GetNetworkResourceByID runtime0 "A" world0)).
Proof.
  assert (H1 : GetNetworkResourceByID runtime0 "A" world0
    = Done (mkPtr 0 nrA) (world_of (GetNetworkResourceByID runtime0 "A" world0)))
    by (vm_compute; reflexivity).
  split; [exact H1|]. split; [reflexivity|]. split; [vm_compute; reflexivity|].
  exact (GetNetworkResourceByID_repeat_hits runtime0 "A" world0 _ _ pool24 H1 eq_refl
           ltac:(vm_compute; reflexivity)).
Defined.

(** X8: a lookup that misses stores what it fetched with
    [cacheNetworkResource]: under the record's own ID and its pool when a
    subnet can be derived from it, nowhere otherwise. So when the record's
    ID differs from the requested one (a name or alias), or no subnet can be
    derived, the requested ID stays uncached: the next lookup by it inspects
    the network again and returns a new allocation. *)
Theorem GetNetworkResourceByID_uncached_refetches (rt : Runtime) (id : string)
    (w : World) (nr : NetworkResource)
    (Hmiss : nrByID (w_client w) !! id = None) (Hi : rt_inspect rt id = Ok nr)
    (Hnc : NR_ID nr <> id \/ exists e, poolFromConfig (NR_IPAM_Config nr) = Err e) :
  exists p1 w1 p2 w2,
    GetNetworkResourceByID rt id w = Done p1 w1 /\
    w_client w1 = cacheNetworkResource p1 (w_client w) /\
    nrByID (w_client w1) !! id = None /\
    GetNetworkResourceByID rt id w1 = Done p2 w2 /\
    ptr_val p1 = nr /\ ptr_val p2 = nr /\ p1 <> p2 /\
    w_trace w2 = w_trace w ++ [EvInspect id; EvInspect id].
Proof.
  assert (Hmiss1 : nrByID (cacheNetworkResource (mkPtr (w_next w) nr) (w_client w)) !! id
                   = None).
  { unfold cacheNetworkResource, poolFromNR. cbn [ptr_val].
    destruct (poolFromConfig (NR_IPAM_Config nr)) as [P|e] eqn:HP; [|exact Hmiss].
    destruct Hnc as [Hne|[e He]]; [|congruence].
    cbn [nrByID]. rewrite lookup_insert. case_decide; [congruence|exact Hmiss]. }
  unfold GetNetworkResourceByID at 1. rewrite Hmiss, Hi. cbn.
  do 4 eexists. split; [reflexivity|]. split; [reflexivity|].
  split; [exact Hmiss1|].
  unfold GetNetworkResourceByID, set_client. cbn [w_client]. rewrite Hmiss1, Hi. cbn.
  split; [reflexivity|]. split; [reflexivity|]. split; [reflexivity|].
  split; [intros Heq; injection Heq; lia|].
  rewrite <- app_assoc. reflexivity.
Qed.

Lemma GetNetworkResourceByID_uncached_refetches_witness :
  nrByID (w_client world0) !! "net-a"%string = None /\
  rt_inspect runtime_alias "net-a" = Ok nrA /\
  (NR_ID nrA <> "net-a"%string \/ exists e, poolFromConfig (NR_IPAM_Config nrA) = Err e) /\
  exists p1 w1 p2 w2,
    GetNetworkResourceByID runtime_alias "net-a" world0 = Done p1 w1 /\
    w_client w1 = cacheNetworkResource p1 (w_client world0) /\
    nrByID (w_client w1) !! "net-a"%string = None /\
    GetNetworkResourceByID runtime_alias "net-a" w1 = Done p2 w2 /\
    ptr_val p1 = nrA /\ ptr_val p2 = nrA /\ p1 <> p2 /\
    w_trace w2 = w_trace world0 ++ [EvInspect "net-a"; EvInspect "net-a"].
Proof.
  assert (Hnc : NR_ID nrA <> "net-a"%string \/
                exists e, poolFromConfig (NR_IPAM_Config nrA) = Err e)
    by (left; vm_compute; discriminate).
  split; [reflexivity|]. split; [reflexivity|]. split; [exact Hnc|].
  exact (GetNetworkResourceByID_uncached_refetches runtime_alias "net-a" world0 nrA
           eq_refl eq_refl Hnc).
Defined.

(** X10: in any cache state the lookups can reach from the empty cache, a
    record returned for [pool] has [pool] as its derived subnet, except that
    the empty pool "" returns a record from which no subnet can be derived. *)
Theorem GetNetworkResourceByPool_returns_its_pool (rt : Runtime) (w0 w w' : World)
    (pool : string) (p : Ptr)
    (Hinit : w_client w0 = NewClient_cache) (Hreach : rtc (cache_step rt) w0 w)
    (Hres : GetNetworkResourceByPool rt pool w = Done (Some p) w') :
  match poolFromNR p with Ok P => P = pool | Err _ => pool = ""%string end.
Proof.
  unfold GetNetworkResourceByPool in Hres.
  destruct (nrByPool (w_client w) !! pool) as [q|] eqn:Hq.
  - injection Hres as <- _. rewrite (reachable_pool_keyed rt w0 w Hinit Hreach _ _ Hq).
    reflexivity.
  - destruct (rt_list rt) as [nl|e]; [|discriminate].
    apply byPool_scan_found in Hres. unfold scanned_pool in Hres.
    destruct (poolFromNR p); congruence.
Qed.

Lemma GetNetworkResourceByPool_returns_its_pool_witness :
  w_client world0 = NewClient_cache /\ rtc (cache_step runtime_alias) world0 world0 /\
  GetNetworkResourceByPool runtime_alias "" world0
    = Done (Some (mkPtr 0 nrNoSubnet))
           (world_of (GetNetworkResourceByPool runtime_alias "" world0)) /\
  match poolFromNR (mkPtr 0 nrNoSubnet) with Ok P => P = ""%string | Err _ => ""%string = ""%string end.
Proof.
  assert (H : GetNetworkResourceByPool runtime_alias "" world0
    = Done (Some (mkPtr 0 nrNoSubnet))
           (world_of (GetNetworkResourceByPool runtime_alias "" world0)))
    by (vm_compute; reflexivity).
  split; [reflexivity|]. split; [apply rtc_refl|]. split; [exact H|].
  exact (GetNetworkResourceByPool_returns_its_pool runtime_alias world0 world0 _ "" _
           eq_refl (rtc_refl _ _) H).
Defined.

(** X11: in any cache state the lookups can reach from the empty cache,
    every pool-index entry holds a record whose derived subnet is its key. *)
Theorem pool_index_keyed_by_subnet (rt : Runtime) (w0 w : World)
    (Hinit : w_client w0 = NewClient_cache) (Hreach : rtc (cache_step rt) w0 w) :
  forall P p, nrByPool (w_client w) !! P = Some p -> poolFromNR p = Ok P.
Proof.
  exact (reachable_pool_keyed rt w0 w Hinit Hreach).
Qed.

Lemma pool_index_keyed_by_subnet_witness :
  w_client world0 = NewClient_cache /\
  rtc (cache_step runtime0) world0
      (world_of (GetNetworkResourceByID runtime0 "A" world0)) /\
  forall P p,
    nrByPool (w_client (world_of (GetNetworkResourceByID runtime0 "A" world0))) !! P
      = Some p -> poolFromNR p = Ok P.
Proof.
  assert (H : rtc (cache_step runtime0) world0
                (world_of (GetNetworkResourceByID runtime0 "A" world0)))
    by (apply rtc_once; left; exists "A"%string; reflexivity).
  split; [reflexivity|]. split; [exact H|].
  exact (pool_index_keyed_by_subnet runtime0 world0 _ eq_refl H).
Defined.

(** X12: in any cache state the lookups can reach from the empty cache, once
    a lookup by a non-empty pool has returned a record, the pool index has an
    entry for that pool: the next lookup of it is answered from the cache,
    with no runtime call and no change. *)
Theorem GetNetworkResourceByPool_found_then_cached (rt : Runtime) (w0 w w1 : World)
    (pool : string) (p : Ptr)
    (Hinit : w_client w0 = NewClient_cache) (Hreach : rtc (cache_step rt) w0 w)
    (Hne : pool <> ""%string)
    (Hres : GetNetworkResourceByPool rt pool w = Done (Some p) w1) :
  exists q, GetNetworkResourceByPool rt pool w1 = Done (Some q) w1.
Proof.
  assert (Hq : exists q, nrByPool (w_client w1) !! pool = Some q).
  { unfold GetNetworkResourceByPool in Hres.
    destruct (nrByPool (w_client w) !! pool) as [q|] eqn:Hq.
    - injection Hres as _ <-. eauto.
    - destruct (rt_list rt) as [nl|e]; [|discriminate].
      apply (byPool_scan_found_cached rt pool nl (log_event EvNetworkList w) p w1 Hne);
        [|exact Hres].
      exact (reachable_coherent rt w0 w Hinit Hreach). }
  destruct Hq as [q Hq]. exists q. unfold GetNetworkResourceByPool. rewrite Hq.
  reflexivity.
Qed.

Lemma GetNetworkResourceByPool_found_then_cached_witness :
  w_client world0 = NewClient_cache /\ rtc (cache_step runtime_alias) world0 world0 /\
  pool24 <> ""%string /\
  GetNetworkResourceByPool runtime_alias pool24 world0
    = Done (Some (mkPtr 1 nrA)) (world_of (GetNetworkResourceByPool runtime_alias pool24 world0)) /\
  exists q, GetNetworkResourceByPool runtime_alias pool24
              (world_of (GetNetworkResourceByPool runtime_alias pool24 world0))
            = Done (Some q) (world_of (GetNetworkResourceByPool runtime_alias pool24 world0)).
Proof.
  assert (H : GetNetworkResourceByPool runtime_alias pool24 world0
    = Done (Some (mkPtr 1 nrA)) (world_of (GetNetworkResourceByPool runtime_alias pool24 world0)))
    by (vm_compute; reflexivity).
  assert (Hne : pool24 <> ""%string) by (vm_compute; discriminate).
  split; [reflexivity|]. split; [apply rtc_refl|]. split; [exact Hne|]. split; [exact H|].
  exact (GetNetworkResourceByPool_found_then_cached runtime_alias world0 world0 _ pool24 _
           eq_refl (rtc_refl _ _) Hne H).
Defined.

(* ------------------------------------------------------------------ *)
(** ** RequestAddress and the routing table *)

Section RouteFrame.

Variable env : Env.

Lemma ret_kept {A} (a : A) : routes_kept (ret a).
Proof. intros w. reflexivity. Qed.

Lemma bind_kept {A B} (m : M A) (k : A -> M B) :
  routes_kept m -> (forall a, routes_kept (k a)) -> routes_kept (bind m k).
Proof.
  intros Hm Hk w. unfold bind. specialize (Hm w).
  destruct (m w) as [a w1|e w1|w1|w1]; simpl in Hm |- *; try exact Hm.
  rewrite Hk. exact Hm.
Qed.

Lemma bind_kept_unless_done {A B} (m : M A) (k : A -> M B) :
  routes_kept m -> (forall a, routes_kept_unless_done (k a)) ->
  routes_kept_unless_done (bind m k).
Proof.
  intros Hm Hk w. unfold bind. specialize (Hm w).
  destruct (m w) as [a w1|e w1|w1|w1]; simpl in Hm |- *; try exact Hm.
  specialize (Hk a w1). destruct (k a w1); simpl in Hk |- *; congruence.
Qed.

Lemma bind_ret_unless_done {A B} (m : M A) (f : A -> B) :
  routes_kept_unless_done m -> routes_kept_unless_done (bind m (fun a => ret (f a))).
Proof.
  intros Hm w. unfold bind. specialize (Hm w).
  destruct (m w); simpl in Hm |- *; exact Hm || exact I.
Qed.

Lemma kept_unless_done {A} (m : M A) : routes_kept m -> routes_kept_unless_done m.
Proof. intros Hm w. specialize (Hm w). destruct (m w); exact Hm || exact I. Qed.

Lemma candidate_loop_kept (fuel : nat) (subnet addr : IPNet) (routes : list Route) :
  routes_kept (candidate_loop env fuel subnet addr routes).
Proof.
  revert addr routes. induction fuel as [|f IH]; intros addr routes w; [reflexivity|].
  simpl. destruct routes as [|r0 routes]; [reflexivity|].
  revert w. apply bind_kept.
  - destruct (IPNet_IP addr); [|apply ret_kept].
    apply bind_kept; [intros w; reflexivity|intros; apply ret_kept].
  - intros a. apply bind_kept; [|intros; apply IH].
    intros w. unfold RouteListFiltered. destruct (w_rt_err _); reflexivity.
Qed.

Lemma GetNetworkResourceByID_kept (rt : Runtime) (id : string) :
  routes_kept (GetNetworkResourceByID rt id).
Proof.
  intros w. unfold GetNetworkResourceByID.
  destruct (nrByID (w_client w) !! id); [reflexivity|].
  destruct (rt_inspect rt id); reflexivity.
Qed.

Lemma byPool_scan_kept (rt : Runtime) (pool : string) (nl : list NetworkResource) :
  routes_kept (byPool_scan rt pool nl).
Proof.
  induction nl as [|n nl IH]; intros w; [reflexivity|]. simpl.
  pose proof (GetNetworkResourceByID_kept rt (NR_ID n) w) as H.
  destruct (GetNetworkResourceByID rt (NR_ID n) w) as [tnr w1|e w1|w1|w1];
    simpl in H |- *; try exact H.
  - destruct (String.eqb _ pool); simpl; [exact H|rewrite IH; exact H].
  - rewrite IH. exact H.
Qed.

Lemma GetNetworkResourceBySubnet_kept (pool : string) :
  routes_kept (GetNetworkResourceBySubnet env pool).
Proof.
  intros w. unfold GetNetworkResourceBySubnet, GetNetworkResourceByPool.
  cbn [w_client log_event].
  destruct (nrByPool (w_client w) !! pool); [reflexivity|].
  destruct (rt_list (env_runtime env)) as [nl|e]; [|reflexivity].
  rewrite byPool_scan_kept. reflexivity.
Qed.

Lemma ConnectHost_kept (id : string) : routes_kept (ConnectHost env id).
Proof. intros w. unfold ConnectHost. destruct (env_connect_host env id); reflexivity. Qed.

Lemma GetGatewayBySubnet_kept (pool : string) : routes_kept (GetGatewayBySubnet env pool).
Proof.
  intros w. unfold GetGatewayBySubnet. destruct (env_gateway env pool) as [g [e|]]; reflexivity.
Qed.

Lemma RouteAdd_kept_unless_done (r : Route) : routes_kept_unless_done (RouteAdd r).
Proof.
  intros w. unfold RouteAdd. cbn [w_rt_err log_event].
  destruct (w_rt_err w); [reflexivity|]. destruct (existsb _ _); [reflexivity|exact I].
Qed.

(** Only a returning [RequestAddress] changes the routing table. *)
Lemma RequestAddress_kept_unless_done (fuel : nat) (r : RequestAddressRequest) :
  routes_kept_unless_done (RequestAddress env fuel r).
Proof.
  intros w. unfold RequestAddress.
  destruct (ParseCIDR (RAReq_PoolID r)) as [[ip0 subnet]|]; [|reflexivity].
  destruct (String.eqb _ _); [exact I|]. cbv zeta. revert w.
  apply bind_kept_unless_done; [apply candidate_loop_kept|intros a].
  apply bind_kept_unless_done; [apply GetNetworkResourceBySubnet_kept|intros [nr|]];
    [|apply kept_unless_done; intros w; reflexivity].
  apply bind_kept_unless_done; [apply ConnectHost_kept|intros _].
  apply bind_kept_unless_done; [apply GetGatewayBySubnet_kept|intros [gw|]];
    [|intros w; reflexivity].
  apply bind_ret_unless_done. apply RouteAdd_kept_unless_done.
Qed.

(** What a returning host request did: the candidate it settled on had no
    route, and the one route it added is for that candidate, through the
    gateway of the pool. *)
Lemma RequestAddress_host_Done (fuel : nat) (r : RequestAddressRequest) (w w' : World)
    (resp : RequestAddressResponse) :
  ~ is_gateway_request r -> RequestAddress env fuel r w = Done resp w' ->
  exists ip0 subnet a g,
    ParseCIDR (RAReq_PoolID r) = Some (ip0, subnet) /\
    env_gateway env (RAReq_PoolID r) = (Some g, None) /\
    route_filter_dst (w_routes w) (mkIPNet a (host_mask subnet)) = [] /\
    w_routes w' = mkRoute (Some (mkIPNet a (host_mask subnet))) (IPNet_IP g) :: w_routes w /\
    resp = response_for subnet a.
Proof.
  intros Hhost Hret. unfold RequestAddress in Hret.
  destruct (ParseCIDR (RAReq_PoolID r)) as [[ip0 subnet]|] eqn:Hpool; [|discriminate].
  destruct (String.eqb (request_address_type r) gateway_request_type) eqn:Hgw.
  { apply String.eqb_eq in Hgw. contradiction. }
  apply bind_Done in Hret as (cand & w1 & Hloop & Hrest).
  apply candidate_loop_Done in Hloop as (Hr1 & Hmask & _ & Hfree).
  specialize (Hfree ltac:(discriminate)).
  cbn [IPNet_Mask] in Hmask.
  assert (Hcand : cand = mkIPNet (IPNet_IP cand) (host_mask subnet)).
  { destruct cand as [ci cm]. cbn in Hmask |- *. rewrite Hmask. reflexivity. }
  apply bind_Done in Hrest as (nr & w2 & Hsub & Hk).
  pose proof (GetNetworkResourceBySubnet_kept (RAReq_PoolID r) w1) as Hr2.
  rewrite Hsub in Hr2. cbn [world_of] in Hr2.
  destruct nr as [nr|]; [|discriminate].
  apply bind_Done in Hk as (u & w3 & Hconn & Hk).
  pose proof (ConnectHost_kept (NR_ID (ptr_val nr)) w2) as Hr3.
  rewrite Hconn in Hr3. cbn [world_of] in Hr3.
  apply bind_Done in Hk as (gw & w4 & Hgate & Hk).
  pose proof (GetGatewayBySubnet_kept (RAReq_PoolID r) w3) as Hr4.
  rewrite Hgate in Hr4. cbn [world_of] in Hr4.
  unfold GetGatewayBySubnet in Hgate.
  destruct (env_gateway env (RAReq_PoolID r)) as [g [e|]] eqn:Hg; [discriminate|].
  injection Hgate as <- <-. destruct g as [g|]; [|discriminate].
  apply bind_Done in Hk as (u' & w5 & Hadd & Hk).
  unfold ret in Hk. injection Hk as <- <-.
  unfold RouteAdd, log_event in Hadd. cbn [w_rt_err w_routes] in Hadd.
  destruct (w_rt_err w3); [discriminate|].
  destruct (existsb _ _); [discriminate|]. injection Hadd as _ <-.
  exists ip0, subnet, (IPNet_IP cand), g.
  split; [reflexivity|]. split; [reflexivity|].
  rewrite <- Hcand. split; [exact Hfree|].
  split; [|reflexivity]. cbn [w_routes set_routes]. unfold set_routes. cbn [w_routes].
  congruence.
Qed.

Lemma bytes_of_slash (s : string) :
  ~ In "/"%char (list_ascii_of_string s) -> ~ In 47 (bytes_of s).
Proof.
  intros Hn Hin. apply Hn. unfold bytes_of in Hin. apply in_map_iff in Hin as (a & Ha & Hin).
  assert (H47 : nat_of_ascii a = 47%nat) by lia.
  replace "/"%char with a; [exact Hin|].
  rewrite <- (ascii_nat_embedding a), H47. reflexivity.
Qed.

Lemma byteIndex_None (s : list Z) (c : Z) : ~ In c s -> byteIndex s c = None.
Proof.
  induction s as [|x s IH]; intros Hn; [reflexivity|]. simpl.
  destruct (Z.eqb_spec x c) as [->|Hne]; [contradiction Hn; left; reflexivity|].
  rewrite IH; [reflexivity|]. intros Hin. apply Hn. right. exact Hin.
Qed.

Lemma CIDRMask_size (n bits : Z) :
  (bits = 32 \/ bits = 128) -> 0 <= n <= bits -> Mask_Size (CIDRMask n bits) = (n, bits).
Proof.
  intros [-> | ->] Hn.
  - destruct (CIDRMask_32 n Hn) as [Hl Hs]. unfold Mask_Size. rewrite Hs, Hl.
    destruct (Z.eqb_spec n (-1)); [lia|reflexivity].
  - destruct (CIDRMask_128 n Hn) as [Hl Hs]. unfold Mask_Size. rewrite Hs, Hl.
    destruct (Z.eqb_spec n (-1)); [lia|reflexivity].
Qed.

Lemma bind_Fail {A B} (m : M A) (k : A -> M B) (w : World) (e : string) (w' : World) :
  m w = Fail e w' -> bind m k w = Fail e w'.
Proof. intros H. unfold bind. rewrite H. reflexivity. Qed.

(** A failing netlink socket ends the loop at its first route query. *)
Lemma candidate_loop_rt_err (f : nat) (subnet addr : IPNet) (r0 : Route)
    (rs : list Route) (w : World) (e : string) :
  w_rt_err w = Some e ->
  exists w', candidate_loop env (S f) subnet addr (r0 :: rs) w = Fail e w' /\
    w_routes w' = w_routes w /\ w_client w' = w_client w.
Proof.
  intros Herr. cbn [candidate_loop]. unfold bind.
  destruct (IPNet_IP addr);
    unfold RandAddr, ret, RouteListFiltered, log_event, bump_draws; cbn [w_rt_err];
    rewrite Herr; eexists; (split; [reflexivity|]); split; reflexivity.
Qed.

End RouteFrame.

(** X1: the mask a host request queries and installs routes with is a full
    host mask of the pool's family: for a pool that parses, it is the 4-byte
    /32 mask when the pool's mask has 4 bytes (IPv4) and the 16-byte /128
    mask when it has 16 bytes (IPv6). *)
Theorem host_mask_is_full_prefix (s : string) (ip0 : IP) (subnet : IPNet)
    (Hpool : ParseCIDR s = Some (ip0, subnet)) :
  (length (IPNet_Mask subnet) = 4%nat /\ host_mask subnet = [255; 255; 255; 255] /\
   Mask_Size (host_mask subnet) = (32, 32)) \/
  (length (IPNet_Mask subnet) = 16%nat /\ host_mask subnet = repeat 255 16 /\
   Mask_Size (host_mask subnet) = (128, 128)).
Proof.
  unfold host_mask.
  apply ParseCIDR_mask in Hpool as (n & [[-> Hn] | [-> Hn]]).
  - left. rewrite (CIDRMask_size n 32 ltac:(lia) Hn). cbn [snd].
    split; [exact (proj1 (CIDRMask_32 n Hn))|]. split; vm_compute; reflexivity.
  - right. rewrite (CIDRMask_size n 128 ltac:(lia) Hn). cbn [snd].
    split; [exact (proj1 (CIDRMask_128 n Hn))|]. split; vm_compute; reflexivity.
Qed.

Lemma host_mask_is_full_prefix_witness :
  ParseCIDR "fd00::/64" = Some (parseIPv6 (bytes_of "fd00::"),
                                 mkIPNet (IP_Mask (parseIPv6 (bytes_of "fd00::")) (CIDRMask 64 128))
                                         (CIDRMask 64 128)) /\
  ((length (CIDRMask 64 128) = 4%nat /\ host_mask (mkIPNet (IP_Mask (parseIPv6 (bytes_of "fd00::")) (CIDRMask 64 128)) (CIDRMask 64 128)) = [255; 255; 255; 255] /\
    Mask_Size (host_mask (mkIPNet (IP_Mask (parseIPv6 (bytes_of "fd00::")) (CIDRMask 64 128)) (CIDRMask 64 128))) = (32, 32)) \/
   (length (CIDRMask 64 128) = 16%nat /\ host_mask (mkIPNet (IP_Mask (parseIPv6 (bytes_of "fd00::")) (CIDRMask 64 128)) (CIDRMask 64 128)) = repeat 255 16 /\
    Mask_Size (host_mask (mkIPNet (IP_Mask (parseIPv6 (bytes_of "fd00::")) (CIDRMask 64 128)) (CIDRMask 64 128))) = (128, 128))).
Proof.
  assert (H : ParseCIDR "fd00::/64" = Some (parseIPv6 (bytes_of "fd00::"),
                 mkIPNet (IP_Mask (parseIPv6 (bytes_of "fd00::")) (CIDRMask 64 128))
                         (CIDRMask 64 128))) by (vm_compute; reflexivity).
  split; [exact H|]. exact (host_mask_is_full_prefix _ _ _ H).
Defined.

(** X2: a pool identifier without a '/' is never a CIDR: [RequestAddress]
    then panics on the nil subnet before doing anything, whatever the
    request's address and options. *)
Theorem RequestAddress_pool_without_slash_panics (env : Env) (fuel : nat)
    (r : RequestAddressRequest) (w : World)
    (Hslash : ~ In "/"%char (list_ascii_of_string (RAReq_PoolID r))) :
  RequestAddress env fuel r w = Panic w.
Proof.
  unfold RequestAddress, ParseCIDR. cbv zeta.
  rewrite (byteIndex_None _ _ (bytes_of_slash _ Hslash)). reflexivity.
Qed.

Lemma RequestAddress_pool_without_slash_panics_witness :
  ~ In "/"%char (list_ascii_of_string (RAReq_PoolID (req "fd00::" "fd00::1" true))) /\
  RequestAddress env0 1 (req "fd00::" "fd00::1" true) world0 = Panic world0.
Proof.
  assert (H : ~ In "/"%char (list_ascii_of_string (RAReq_PoolID (req "fd00::" "fd00::1" true)))).
  { vm_compute. intros [H|[H|[H|[H|[H|[H|[]]]]]]]; discriminate. }
  split; [exact H|]. exact (RequestAddress_pool_without_slash_panics env0 1 _ world0 H).
Defined.

(** X3: [RequestAddress] changes the routing table only when it returns an
    address, and then only for a host request, which adds exactly one
    route: the returned address under the full host mask, a destination
    that had no route before. A gateway request returns with the world
    unchanged; an error, a panic or a loop that does not end leaves the
    routing table as it was. (The owning network is resolved through the
    cache lookups, which never touch the routing table.) *)
Theorem RequestAddress_route_effects (env : Env) (fuel : nat) (r : RequestAddressRequest)
    (w : World) :
  match RequestAddress env fuel r w with
  | Done resp w' =>
      (is_gateway_request r /\ w' = w) \/
      (~ is_gateway_request r /\
       exists ip0 subnet a gw,
         ParseCIDR (RAReq_PoolID r) = Some (ip0, subnet) /\
         route_filter_dst (w_routes w) (mkIPNet a (host_mask subnet)) = [] /\
         w_routes w' = mkRoute (Some (mkIPNet a (host_mask subnet))) gw :: w_routes w /\
         resp = response_for subnet a)
  | Fail _ w' | Panic w' | OutOfFuel w' => w_routes w' = w_routes w
  end.
Proof.
  pose proof (RequestAddress_kept_unless_done env fuel r w) as Hk.
  destruct (RequestAddress env fuel r w) as [resp w'|e w'|w'|w'] eqn:E; try exact Hk.
  destruct (String.eqb_spec (request_address_type r) gateway_request_type) as [Hg|Hg].
  - left. split; [exact Hg|]. unfold RequestAddress in E.
    destruct (ParseCIDR (RAReq_PoolID r)) as [[ip0 subnet]|]; [|discriminate].
    rewrite Hg, String.eqb_refl in E. injection E as _ <-. reflexivity.
  - right. split; [exact Hg|].
    destruct (RequestAddress_host_Done env fuel r w w' resp Hg E)
      as (ip0 & subnet & a & g & Hp & _ & Hf & Hr & Hresp).
    exists ip0, subnet, a, (IPNet_IP g). auto.
Qed.

(** X4: two host requests on the same pool that both return give different
    addresses ([IP.Equal] is false), provided the second one runs on a
    routing table that still holds the routes the first left. *)
Theorem host_requests_return_distinct_addresses (env : Env) (fuel1 fuel2 : nat)
    (r1 r2 : RequestAddressRequest) (w w1 w1' w2 : World)
    (resp1 resp2 : RequestAddressResponse)
    (Hpool : RAReq_PoolID r1 = RAReq_PoolID r2)
    (Hh1 : ~ is_gateway_request r1) (Hh2 : ~ is_gateway_request r2)
    (Hrun1 : RequestAddress env fuel1 r1 w = Done resp1 w1)
    (Hkeep : incl (w_routes w1) (w_routes w1'))
    (Hrun2 : RequestAddress env fuel2 r2 w1' = Done resp2 w2) :
  exists subnet a1 a2,
    resp1 = response_for subnet a1 /\ resp2 = response_for subnet a2 /\
    IP_Equal a1 a2 = false.
Proof.
  destruct (RequestAddress_host_Done env fuel1 r1 w w1 resp1 Hh1 Hrun1)
    as (ip1 & sn1 & a1 & g1 & Hp1 & _ & _ & Hr1 & Hresp1).
  destruct (RequestAddress_host_Done env fuel2 r2 w1' w2 resp2 Hh2 Hrun2)
    as (ip2 & sn2 & a2 & g2 & Hp2 & _ & Hf2 & _ & Hresp2).
  rewrite Hpool, Hp2 in Hp1. injection Hp1 as <- <-.
  exists sn2, a1, a2. split; [exact Hresp1|]. split; [exact Hresp2|].
  assert (Hin : In (mkRoute (Some (mkIPNet a1 (host_mask sn2))) (IPNet_IP g1)) (w_routes w1')).
  { apply Hkeep. rewrite Hr1. left. reflexivity. }
  pose proof (route_filter_dst_nil _ _ Hf2 _ Hin) as Hne.
  unfold ipNetEqual in Hne. cbn [Route_Dst IPNet_Mask IPNet_IP] in Hne.
  rewrite Z.eqb_refl in Hne. exact Hne.
Qed.

Lemma host_requests_return_distinct_addresses_witness :
  let w1 := world_of (RequestAddress env1 3 (req pool24 "" false) world0) in
  let sn := mkIPNet [10; 1; 1; 0] (CIDRMask 24 32) in
  RAReq_PoolID (req pool24 "" false) = RAReq_PoolID (req pool24 "" false) /\
  ~ is_gateway_request (req pool24 "" false) /\
  RequestAddress env1 3 (req pool24 "" false) world0 = Done (response_for sn (IPv4 10 1 1 6)) w1 /\
  RequestAddress env1 3 (req pool24 "" false) w1
    = Done (response_for sn (IPv4 10 1 1 7))
           (world_of (RequestAddress env1 3 (req pool24 "" false) w1)) /\
  exists subnet a1 a2,
    response_for sn (IPv4 10 1 1 6) = response_for subnet a1 /\
    response_for sn (IPv4 10 1 1 7) = response_for subnet a2 /\
    IP_Equal a1 a2 = false.
Proof.
  intros w1 sn.
  assert (Hng : ~ is_gateway_request (req pool24 "" false)) by (vm_compute; discriminate).
  assert (H1 : RequestAddress env1 3 (req pool24 "" false) world0
               = Done (response_for sn (IPv4 10 1 1 6)) w1) by (vm_compute; reflexivity).
  assert (H2 : RequestAddress env1 3 (req pool24 "" false) w1
               = Done (response_for sn (IPv4 10 1 1 7))
                      (world_of (RequestAddress env1 3 (req pool24 "" false) w1)))
    by (vm_compute; reflexivity).
  split; [reflexivity|]. split; [exact Hng|]. split; [exact H1|]. split; [exact H2|].
  exact (host_requests_return_distinct_addresses env1 3 3 _ _ world0 w1 w1 _ _ _
           eq_refl Hng Hng H1 (incl_refl _) H2).
Defined.

(** X5: when the netlink route query fails, a host request for a pool that
    parses (with the loop given at least one turn) fails with that error,
    leaving the routing table and the cache as they were. *)
Theorem RequestAddress_route_query_error (env : Env) (fuel : nat)
    (r : RequestAddressRequest) (w : World) (ip0 : IP) (subnet : IPNet) (e : string)
    (Hpool : ParseCIDR (RAReq_PoolID r) = Some (ip0, subnet))
    (Hhost : ~ is_gateway_request r) (Hfuel : (0 < fuel)%nat)
    (Herr : w_rt_err w = Some e) :
  exists w', RequestAddress env fuel r w = Fail e w' /\
    w_routes w' = w_routes w /\ w_client w' = w_client w.
Proof.
  unfold RequestAddress. rewrite Hpool.
  destruct (String.eqb_spec (request_address_type r) gateway_request_type) as [Hg|Hg];
    [contradiction|].
  destruct fuel as [|f]; [lia|]. cbv zeta.
  destruct (candidate_loop_rt_err env f subnet
              (mkIPNet (ParseIP (RAReq_Address r))
                       (CIDRMask (snd (Mask_Size (IPNet_Mask subnet)))
                                 (snd (Mask_Size (IPNet_Mask subnet)))))
              (mkRoute None []) [] w e Herr) as (w' & Hl & Hr & Hc).
  exists w'. split; [apply bind_Fail; exact Hl|]. auto.
Qed.

Lemma RequestAddress_route_query_error_witness :
  ParseCIDR (RAReq_PoolID (req pool24 "" false))
    = Some (IPv4 10 1 1 0, mkIPNet [10; 1; 1; 0] (CIDRMask 24 32)) /\
  ~ is_gateway_request (req pool24 "" false) /\
  exists w', RequestAddress env0 1 (req pool24 "" false)
               (mkWorld NewClient_cache 0 [] (Some "netlink socket closed") 0 []) =
             Fail "netlink socket closed" w' /\
    w_routes w' = [] /\ w_client w' = NewClient_cache.
Proof.
  assert (Hp : ParseCIDR (RAReq_PoolID (req pool24 "" false))
               = Some (IPv4 10 1 1 0, mkIPNet [10; 1; 1; 0] (CIDRMask 24 32)))
    by (vm_compute; reflexivity).
  assert (Hng : ~ is_gateway_request (req pool24 "" false)) by (vm_compute; discriminate).
  split; [exact Hp|]. split; [exact Hng|].
  exact (RequestAddress_route_query_error env0 1 (req pool24 "" false)
           (mkWorld NewClient_cache 0 [] (Some "netlink socket closed") 0 []) _ _ _
           Hp Hng ltac:(lia) eq_refl).
Defined.

(** X6: a host request never returns an address when the pool's gateway
    lookup answers with neither a gateway nor an error: [gw.IP] is then read
    through a nil pointer. *)
Theorem RequestAddress_nil_gateway_never_returns (env : Env) (fuel : nat)
    (r : RequestAddressRequest) (w w' : World) (resp : RequestAddressResponse)
    (Hhost : ~ is_gateway_request r)
    (Hgw : env_gateway env (RAReq_PoolID r) = (None, None)) :
  RequestAddress env fuel r w <> Done resp w'.
Proof.
  intros Hret.
  destruct (RequestAddress_host_Done env fuel r w w' resp Hhost Hret)
    as (ip0 & subnet & a & g & _ & Hg & _).
  congruence.
Qed.

Lemma RequestAddress_nil_gateway_never_returns_witness :
  ~ is_gateway_request (req pool24 "" false) /\
  env_gateway (mkEnv runtime0 (env_rand env1) (fun _ => None) (fun _ => (None, None)))
              (RAReq_PoolID (req pool24 "" false)) = (None, None) /\
  RequestAddress (mkEnv runtime0 (env_rand env1) (fun _ => None) (fun _ => (None, None)))
                 3 (req pool24 "" false) world0
    = Panic (world_of (RequestAddress (mkEnv runtime0 (env_rand env1) (fun _ => None)
                                             (fun _ => (None, None)))
                                      3 (req pool24 "" false) world0)) /\
  forall resp w',
    RequestAddress (mkEnv runtime0 (env_rand env1) (fun _ => None) (fun _ => (None, None)))
                   3 (req pool24 "" false) world0 <> Done resp w'.
Proof.
  assert (Hng : ~ is_gateway_request (req pool24 "" false)) by (vm_compute; discriminate).
  split; [exact Hng|]. split; [reflexivity|]. split; [vm_compute; reflexivity|].
  intros resp w'.
  exact (RequestAddress_nil_gateway_never_returns
           (mkEnv runtime0 (env_rand env1) (fun _ => None) (fun _ => (None, None)))
           3 _ world0 w' resp Hng eq_refl).
Defined.

(* ------------------------------------------------------------------ *)
(** ** The pool scan's result *)

Section PoolScan.

Variable rt : Runtime.
Hypothesis Hown : inspect_by_own_id rt.

Lemma insert_inspected (c c' : Client) :
  cache_insert rt c c' -> byID_inspected rt c -> byID_inspected rt c'.
Proof.
  intros (i & nr & Hi & ->) Hc id p. unfold cacheNetworkResource.
  destruct (poolFromNR nr) as [P|e]; [|apply Hc]. simpl.
  rewrite lookup_insert. case_decide as Hid.
  - intros Heq. injection Heq as <-. subst id. exact (Hown _ _ Hi).
  - apply Hc.
Qed.

Lemma inserts_inspected (c c' : Client) :
  rtc (cache_insert rt) c c' -> byID_inspected rt c -> byID_inspected rt c'.
Proof.
  induction 1 as [c|c1 c2 c3 Hs _ IH]; intros Hc; [exact Hc|].
  apply IH. exact (insert_inspected _ _ Hs Hc).
Qed.

Lemma GetNetworkResourceByID_inspected (id : string) (w : World) :
  byID_inspected rt (w_client w) ->
  match GetNetworkResourceByID rt id w with
  | Done p _ => rt_inspect rt id = Ok (ptr_val p)
  | Fail e _ => rt_inspect rt id = Err e
  | _ => False
  end.
Proof.
  intros Hc. unfold GetNetworkResourceByID.
  destruct (nrByID (w_client w) !! id) as [p|] eqn:Hl; [exact (Hc _ _ Hl)|].
  destruct (rt_inspect rt id) as [nr|e] eqn:Hi; reflexivity.
Qed.

Lemma byPool_scan_first_match (pool : string) (nl : list NetworkResource) (w : World) :
  byID_inspected rt (w_client w) ->
  exists o w', byPool_scan rt pool nl w = Done o w' /\
               option_map ptr_val o = first_match rt pool nl.
Proof.
  revert w. induction nl as [|n nl IH]; intros w Hc; [eexists; eexists; split; reflexivity|].
  simpl. pose proof (GetNetworkResourceByID_inspected (NR_ID n) w Hc) as H.
  pose proof (GetNetworkResourceByID_cache rt (NR_ID n) w) as Hcache.
  destruct (GetNetworkResourceByID rt (NR_ID n) w) as [tnr w1|e w1|w1|w1];
    try contradiction; cbn [world_of] in Hcache; rewrite H.
  - change (match poolFromNR tnr with Ok s => s | Err _ => ""%string end)
      with (nr_pool (ptr_val tnr)).
    destruct (String.eqb (nr_pool (ptr_val tnr)) pool).
    + eexists; eexists; split; reflexivity.
    + apply IH. exact (inserts_inspected _ _ Hcache Hc).
  - apply IH. exact (inserts_inspected _ _ Hcache Hc).
Qed.

End PoolScan.

(** X9: on a pool-index miss, [GetNetworkResourceByPool] fails only when
    listing the networks fails, with that error and the cache unchanged.
    Otherwise it returns the first listed network whose inspection succeeds
    with a record for the pool, passing over networks whose inspection
    fails, and nil (no error) when there is none. This holds in every cache
    state reachable from the empty cache, for a runtime whose inspection by
    a record's own ID gives that record back. *)
Theorem GetNetworkResourceByPool_scan_result (rt : Runtime) (w0 w : World) (pool : string)
    (Hown : inspect_by_own_id rt)
    (Hinit : w_client w0 = NewClient_cache) (Hreach : rtc (cache_step rt) w0 w)
    (Hmiss : nrByPool (w_client w) !! pool = None) :
  match rt_list rt with
  | Ok nl => exists o w', GetNetworkResourceByPool rt pool w = Done o w' /\
                          option_map ptr_val o = first_match rt pool nl
  | Err e => exists w', GetNetworkResourceByPool rt pool w = Fail e w' /\
                        w_client w' = w_client w
  end.
Proof.
  unfold GetNetworkResourceByPool. rewrite Hmiss.
  destruct (rt_list rt) as [nl|e].
  - apply (byPool_scan_first_match rt Hown pool nl (log_event EvNetworkList w)).
    apply cache_steps_inserts in Hreach. rewrite Hinit in Hreach.
    apply (inserts_inspected rt Hown _ _ Hreach).
    intros id p. simpl. rewrite lookup_empty. discriminate.
  - eexists. split; reflexivity.
Qed.

Lemma GetNetworkResourceByPool_scan_result_witness :
  inspect_by_own_id runtime_skip /\
  rt_inspect runtime_skip "G" = Err "network not found" /\
  first_match runtime_skip pool24 [nrGone; nrA] = Some nrA /\
  exists o w', GetNetworkResourceByPool runtime_skip pool24 world0 = Done o w' /\
               option_map ptr_val o = first_match runtime_skip pool24 [nrGone; nrA].
Proof.
  assert (Hown : inspect_by_own_id runtime_skip).
  { intros i nr. unfold runtime_skip, runtime0. cbn [rt_inspect].
    repeat (destruct (String.eqb i _); [intros H; injection H as <-; reflexivity|]).
    discriminate. }
  split; [exact Hown|]. split; [reflexivity|]. split; [vm_compute; reflexivity|].
  exact (GetNetworkResourceByPool_scan_result runtime_skip world0 world0 pool24 Hown
           eq_refl (rtc_refl _ _) eq_refl).
Defined.
